(** * BigQuery Explorer: the query-and-state coordination layer

    A shallow embedding of [big_query_bugs.py].  The Streamlit session
    state, the two Streamlit caches (which belong to the process and outlive
    a session), what is drawn on the page and the calls made to the
    warehouse client library are the components of one explicit [world];
    every function of the script is a computation over it that either
    returns or raises. *)

From stdpp Require Import base option list strings pretty gmap.
From Stdlib Require Import ZArith.

Open Scope string_scope.
Open Scope list_scope.
Open Scope stdpp_scope.

(** Line feed, and the joining of the lines of a triple-quoted literal. *)
Definition nl : string := String (Ascii.ascii_of_nat 10) EmptyString.

Definition lines (ls : list string) : string := String.concat nl ls.

(** ** Results of calls that may raise *)

(** [Raised msg] is a Python exception [e] with [str(e) = msg]. *)
Inductive res (A : Type) : Type :=
  | Ok (a : A)
  | Raised (msg : string).

Arguments Ok {A} a.
Arguments Raised {A} msg.

Definition res_bind {A B : Type} (r : res A) (k : A -> res B) : res B :=
  match r with
  | Ok a => k a
  | Raised msg => Raised msg
  end.

(** Python truthiness of the values the script tests with [if]. *)
Definition truthy_str (s : option string) : bool :=
  match s with
  | None => false
  | Some t => negb (String.eqb t "")
  end.

(** An object of a class that defines neither [__bool__] nor [__len__] is
    true; [None] is false. *)
Definition truthy_opt {A : Type} (o : option A) : bool :=
  match o with
  | None => false
  | Some _ => true
  end.

(** [x is None]. *)
Definition is_none {A : Type} (o : option A) : bool :=
  match o with
  | None => true
  | Some _ => false
  end.

(** [str(x)] for a value that is a string or [None]. *)
Definition py_str (s : option string) : string :=
  match s with
  | None => "None"
  | Some t => t
  end.

(** ** Text

    A Python [str] is a sequence of Unicode characters; a text is held here
    as the bytes of its UTF-8 encoding. *)

Definition byte (a : Ascii.ascii) : N := Ascii.N_of_ascii a.

(** The encoding of the character with code point [cp]. *)
Definition utf8 (cp : N) : string :=
  let b := Ascii.ascii_of_N in
  if (cp <? 0x80)%N then String (b cp) ""
  else if (cp <? 0x800)%N then
    String (b (0xC0 + cp / 64)%N) (String (b (0x80 + cp mod 64)%N) "")
  else if (cp <? 0x10000)%N then
    String (b (0xE0 + cp / 4096)%N)
      (String (b (0x80 + (cp / 64) mod 64)%N) (String (b (0x80 + cp mod 64)%N) ""))
  else
    String (b (0xF0 + cp / 262144)%N)
      (String (b (0x80 + (cp / 4096) mod 64)%N)
         (String (b (0x80 + (cp / 64) mod 64)%N) (String (b (0x80 + cp mod 64)%N) ""))).

(** The text made of the characters [cps]. *)
Definition encode (cps : list N) : string := foldr (fun cp s => utf8 cp +:+ s) "" cps.

(** The characters [str.isspace] holds of, which are the ones [str.strip]
    removes when it is given no argument: the ASCII controls U+0009 to
    U+000D and U+001C to U+001F, the space, and the Unicode separators
    beyond ASCII. *)
Definition py_spaces : list N :=
  [ 0x09; 0x0A; 0x0B; 0x0C; 0x0D; 0x1C; 0x1D; 0x1E; 0x1F; 0x20; 0x85; 0xA0;
    0x1680; 0x2000; 0x2001; 0x2002; 0x2003; 0x2004; 0x2005; 0x2006; 0x2007;
    0x2008; 0x2009; 0x200A; 0x2028; 0x2029; 0x202F; 0x205F; 0x3000 ]%N.

Definition py_space (cp : N) : bool := existsb (N.eqb cp) py_spaces.

Definition continuation (b : N) : bool := (0x80 <=? b)%N && (b <=? 0xBF)%N.

(** One, two or three bytes that encode a whitespace character. *)
Definition space1 (a : N) : bool := (a <? 0x80)%N && py_space a.

Definition space2 (a b : N) : bool :=
  (0xC2 <=? a)%N && (a <=? 0xDF)%N && continuation b
  && py_space ((a - 0xC0) * 64 + (b - 0x80))%N.

Definition space3 (a b c : N) : bool :=
  let cp := ((a - 0xE0) * 4096 + (b - 0x80) * 64 + (c - 0x80))%N in
  (0xE0 <=? a)%N && (a <=? 0xEF)%N && continuation b && continuation c
  && (0x800 <=? cp)%N && py_space cp.

(** Drops the whitespace characters a text starts with; [sp2] and [sp3]
    recognise the characters of two and three bytes. *)
Fixpoint strip_front (sp2 : N -> N -> bool) (sp3 : N -> N -> N -> bool) (s : string)
    : string :=
  match s with
  | EmptyString => EmptyString
  | String a t1 =>
      if space1 (byte a) then strip_front sp2 sp3 t1 else
      match t1 with
      | EmptyString => s
      | String b t2 =>
          if sp2 (byte a) (byte b) then strip_front sp2 sp3 t2 else
          match t2 with
          | EmptyString => s
          | String c t3 =>
              if sp3 (byte a) (byte b) (byte c) then strip_front sp2 sp3 t3 else s
          end
      end
  end.

Definition lstrip (s : string) : string := strip_front space2 space3 s.

(** From the end, the bytes of a character are met last byte first. *)
Definition rstrip (s : string) : string :=
  String.rev (strip_front (fun b a => space2 a b) (fun c b a => space3 a b c)
                (String.rev s)).

(** [s.strip()]. *)
Definition strip (s : string) : string := rstrip (lstrip s).

(** ** Tables *)

(** The script tells three classes of pandas dtype apart: [object] (tested
    by [dtype == "object"]), the dtypes [select_dtypes] files under
    ["number"], and the rest (bool, datetime64, ...). *)
Inductive dtype : Type := DNumber | DObject | DOther.

Definition is_number (d : dtype) : bool :=
  match d with
  | DNumber => true
  | _ => false
  end.

Definition is_object (d : dtype) : bool :=
  match d with
  | DObject => true
  | _ => false
  end.

Inductive axis_kind : Type := Quantitative | Categorical.

(** The encoding type letter Altair is given: ["Q"] or ["N"]. *)
Definition type_letter (k : axis_kind) : string :=
  match k with
  | Quantitative => "Q"
  | Categorical => "N"
  end.

Inductive mark : Type :=
  | MarkPoint (size : Z)
  | MarkLine (point : bool)
  | MarkBar.

Inductive color_enc : Type :=
  | ColorField (field : string)
  | ColorValue (v : string).

Section Explorer.

(** The warehouse client object, the numbers a table cell can hold, and the
    three pandas conversions the script relies on: text to number (as
    [pd.to_numeric] reads it), the number a missing value becomes, and
    [str] of a number (as [astype(str)] writes it). *)
Context {Client num : Type}.
Variable to_num : string -> option num.
Variable nan : num.
Variable num_str : num -> string.

Inductive cell : Type :=
  | CText (s : string)
  | CNum (n : num)
  | CNull.

Record Series : Type := mkSeries {
  dtype_of : dtype;
  values : list cell
}.

(** A DataFrame is its ordered columns: label and contents. *)
Local Abbreviation DataFrame := (list (string * Series)).

Definition columns (df : DataFrame) : list string := fst <$> df.

(** [df.empty]: one of the two axes has length zero. *)
Definition df_empty (df : DataFrame) : bool :=
  match df with
  | [] => true
  | (_, s) :: _ => Nat.eqb (length (values s)) 0
  end.

(** [df[col].attr] where [df[col]] is expected to be a Series: a missing
    label raises KeyError, and a label carried by several columns yields a
    DataFrame, which has neither [dtype] nor [tolist]. *)
Definition df_getitem (df : DataFrame) (col attr : string) : res Series :=
  match filter (fun p => p.1 = col) df with
  | [] => Raised ("'" +:+ col +:+ "'")
  | [(_, s)] => Ok s
  | _ :: _ :: _ => Raised ("'DataFrame' object has no attribute '" +:+ attr +:+ "'")
  end.

(** [df[col] = s] for a label already present. *)
Definition df_setitem (df : DataFrame) (col : string) (s : Series) : DataFrame :=
  (fun p => if decide (p.1 = col) then (p.1, s) else p) <$> df.

Definition cell_to_numeric (c : cell) : option num :=
  match c with
  | CText s => to_num s
  | CNum n => Some n
  | CNull => Some nan
  end.

(** [pd.to_numeric(s, errors="ignore")]: all values convert, or the input
    comes back as it was. *)
Definition to_numeric_ignore (s : Series) : Series :=
  match mapM cell_to_numeric (values s) with
  | Some ns => mkSeries DNumber (CNum <$> ns)
  | None => s
  end.

(** [select_dtypes(include=["number"])] and [select_dtypes(exclude=["number"])]. *)
Definition select_number (df : DataFrame) : DataFrame :=
  filter (fun p => is_number (dtype_of p.2) = true) df.

Definition select_not_number (df : DataFrame) : DataFrame :=
  filter (fun p => is_number (dtype_of p.2) = false) df.

Definition cell_str (c : cell) : string :=
  match c with
  | CText s => s
  | CNum n => num_str n
  | CNull => "None"
  end.

(** [df.astype(str)] and [df.rename(columns={old: new})]. *)
Definition astype_str (df : DataFrame) : DataFrame :=
  (fun p => (p.1, mkSeries DObject (CText ∘ cell_str <$> values p.2))) <$> df.

Definition rename_column (old new : string) (df : DataFrame) : DataFrame :=
  (fun p => if decide (p.1 = old) then (new, p.2) else p) <$> df.

(** ** Charts *)

Record chart : Type := mkChart {
  chart_data : DataFrame;
  chart_mark : mark;
  enc_x : string * string;
  enc_y : string * string;
  enc_color : color_enc;
  enc_tooltip : list string;
  chart_width : option string;
  chart_height : option Z;
  chart_title : option string
}.

(** [chart.properties(width=..., height=..., title=...)]. *)
Definition properties (w : string) (h : Z) (t : string) (c : chart) : chart :=
  mkChart (chart_data c) (chart_mark c) (enc_x c) (enc_y c) (enc_color c)
          (enc_tooltip c) (Some w) (Some h) (Some t).

(** ** The page, the collaborators and the world *)

Inductive ui_event : Type :=
  | UiTitle (s : string)
  | UiInfo (s : string)
  | UiWarning (s : string)
  | UiError (s : string)
  | UiSuccess (s : string)
  | UiWrite (s : string)
  | UiDataframe (df : DataFrame)
  | UiChart (c : chart).

(** Calls into the warehouse client library. *)
Inductive ext_call : Type :=
  | ExtBuildClient (key : string)
  | ExtQuery (query : string)
  | ExtListDatasets (project : string)
  | ExtGetTable (table_ref : string).

Record field : Type := mkField {
  field_name : string;
  field_type : string;
  field_mode : string
}.

(** What the collaborators answer during one evaluation of the script.
    [query_and_wait] stands for [client.query_and_wait(query)] followed by
    [rows.to_dataframe()].  [altair_chart] is what Altair makes of a chart
    when [st.altair_chart] has it turned into a Vega-Lite dictionary: it
    raises for a chart it cannot express, for instance one with a label that
    holds a colon, which the shorthand [label:type] cannot carry. *)
Record env : Type := mkEnv {
  build_client : string -> res Client;
  query_and_wait : Client -> string -> res DataFrame;
  list_datasets : Client -> string -> res (list string);
  get_table : Client -> string -> res (list field);
  altair_chart : chart -> res unit
}.

(** [st.session_state].  The first twelve keys are those of [init_state];
    [last_schema] is created by the schema change detector ([None]: the key
    is absent) and [main_query_text] is the key of the query text area
    ([None]: the key is absent; [Some None]: it holds [None]). *)
Record session_state : Type := mkSession {
  schema : DataFrame;
  selected_dataset : option string;
  initial_df : option DataFrame;
  query_error : option string;
  plot_ready : bool;
  chart_x : option string;
  chart_y : option string;
  chart_type_selected : option string;
  user_key_json : option string;
  client : option Client;
  full_dataset_path : option string;
  selected_table : option string;
  last_schema : option (list string);
  main_query_text : option (option string)
}.

(** An entry of a Streamlit cache: the value returned, and the elements the
    function drew, which are drawn again on every hit. *)
Record cached (V : Type) : Type := mkCached {
  cached_value : V;
  cached_replay : list ui_event
}.

Arguments mkCached {V} _ _.
Arguments cached_value {V} _.
Arguments cached_replay {V} _.

Definition query_result : Type := option DataFrame * option string.

Record world : Type := mkWorld {
  session : session_state;
  data_cache : gmap string (cached query_result);
  resource_cache : gmap string (cached (option Client));
  screen : list ui_event;
  ext_calls : list ext_call
}.

Definition with_session (f : session_state -> session_state) (w : world) : world :=
  mkWorld (f (session w)) (data_cache w) (resource_cache w) (screen w) (ext_calls w).

Definition with_data_cache (c : gmap string (cached query_result)) (w : world) : world :=
  mkWorld (session w) c (resource_cache w) (screen w) (ext_calls w).

Definition with_resource_cache (c : gmap string (cached (option Client))) (w : world) : world :=
  mkWorld (session w) (data_cache w) c (screen w) (ext_calls w).

Definition with_screen (s : list ui_event) (w : world) : world :=
  mkWorld (session w) (data_cache w) (resource_cache w) s (ext_calls w).

Definition with_ext_calls (l : list ext_call) (w : world) : world :=
  mkWorld (session w) (data_cache w) (resource_cache w) (screen w) l.

(** Assignments [st.session_state.<key> = v]. *)
Definition set_schema (v : DataFrame) (s : session_state) : session_state :=
  mkSession v (selected_dataset s) (initial_df s) (query_error s)
    (plot_ready s) (chart_x s) (chart_y s) (chart_type_selected s)
    (user_key_json s) (client s) (full_dataset_path s) (selected_table s)
    (last_schema s) (main_query_text s).

Definition set_selected_dataset (v : option string) (s : session_state) : session_state :=
  mkSession (schema s) v (initial_df s) (query_error s) (plot_ready s)
    (chart_x s) (chart_y s) (chart_type_selected s) (user_key_json s)
    (client s) (full_dataset_path s) (selected_table s) (last_schema s)
    (main_query_text s).

Definition set_initial_df (v : option DataFrame) (s : session_state) : session_state :=
  mkSession (schema s) (selected_dataset s) v (query_error s) (plot_ready s)
    (chart_x s) (chart_y s) (chart_type_selected s) (user_key_json s)
    (client s) (full_dataset_path s) (selected_table s) (last_schema s)
    (main_query_text s).

Definition set_query_error (v : option string) (s : session_state) : session_state :=
  mkSession (schema s) (selected_dataset s) (initial_df s) v (plot_ready s)
    (chart_x s) (chart_y s) (chart_type_selected s) (user_key_json s)
    (client s) (full_dataset_path s) (selected_table s) (last_schema s)
    (main_query_text s).

Definition set_plot_ready (v : bool) (s : session_state) : session_state :=
  mkSession (schema s) (selected_dataset s) (initial_df s) (query_error s) v
    (chart_x s) (chart_y s) (chart_type_selected s) (user_key_json s)
    (client s) (full_dataset_path s) (selected_table s) (last_schema s)
    (main_query_text s).

Definition set_chart_x (v : option string) (s : session_state) : session_state :=
  mkSession (schema s) (selected_dataset s) (initial_df s) (query_error s)
    (plot_ready s) v (chart_y s) (chart_type_selected s) (user_key_json s)
    (client s) (full_dataset_path s) (selected_table s) (last_schema s)
    (main_query_text s).

Definition set_chart_y (v : option string) (s : session_state) : session_state :=
  mkSession (schema s) (selected_dataset s) (initial_df s) (query_error s)
    (plot_ready s) (chart_x s) v (chart_type_selected s) (user_key_json s)
    (client s) (full_dataset_path s) (selected_table s) (last_schema s)
    (main_query_text s).

Definition set_chart_type_selected (v : option string) (s : session_state) : session_state :=
  mkSession (schema s) (selected_dataset s) (initial_df s) (query_error s)
    (plot_ready s) (chart_x s) (chart_y s) v (user_key_json s) (client s)
    (full_dataset_path s) (selected_table s) (last_schema s)
    (main_query_text s).

Definition set_user_key_json (v : option string) (s : session_state) : session_state :=
  mkSession (schema s) (selected_dataset s) (initial_df s) (query_error s)
    (plot_ready s) (chart_x s) (chart_y s) (chart_type_selected s) v
    (client s) (full_dataset_path s) (selected_table s) (last_schema s)
    (main_query_text s).

Definition set_client (v : option Client) (s : session_state) : session_state :=
  mkSession (schema s) (selected_dataset s) (initial_df s) (query_error s)
    (plot_ready s) (chart_x s) (chart_y s) (chart_type_selected s)
    (user_key_json s) v (full_dataset_path s) (selected_table s)
    (last_schema s) (main_query_text s).

Definition set_selected_table (v : option string) (s : session_state) : session_state :=
  mkSession (schema s) (selected_dataset s) (initial_df s) (query_error s)
    (plot_ready s) (chart_x s) (chart_y s) (chart_type_selected s)
    (user_key_json s) (client s) (full_dataset_path s) v (last_schema s)
    (main_query_text s).

Definition set_last_schema (v : option (list string)) (s : session_state) : session_state :=
  mkSession (schema s) (selected_dataset s) (initial_df s) (query_error s)
    (plot_ready s) (chart_x s) (chart_y s) (chart_type_selected s)
    (user_key_json s) (client s) (full_dataset_path s) (selected_table s) v
    (main_query_text s).

Definition set_main_query_text (v : option (option string)) (s : session_state)
    : session_state :=
  mkSession (schema s) (selected_dataset s) (initial_df s) (query_error s)
    (plot_ready s) (chart_x s) (chart_y s) (chart_type_selected s)
    (user_key_json s) (client s) (full_dataset_path s) (selected_table s)
    (last_schema s) v.

(** ** Computations *)

Definition M (A : Type) : Type := world -> res A * world.

Definition ret {A : Type} (a : A) : M A := fun w => (Ok a, w).

Definition bind {A B : Type} (m : M A) (k : A -> M B) : M B :=
  fun w =>
    match m w with
    | (Ok a, w') => k a w'
    | (Raised msg, w') => (Raised msg, w')
    end.

Definition raise {A : Type} (msg : string) : M A := fun w => (Raised msg, w).

(** [try: m except Exception as e: h(str(e))]. *)
Definition try_except {A : Type} (m : M A) (h : string -> M A) : M A :=
  fun w =>
    match m w with
    | (Ok a, w') => (Ok a, w')
    | (Raised msg, w') => h msg w'
    end.

Definition lift {A : Type} (r : res A) : M A := fun w => (r, w).

Definition get_session : M session_state := fun w => (Ok (session w), w).

Definition modify_session (f : session_state -> session_state) : M unit :=
  fun w => (Ok tt, with_session f w).

Definition draw (e : ui_event) : M unit :=
  fun w => (Ok tt, with_screen (screen w ++ [e]) w).

(** A call into the client library: logged, then answered. *)
Definition call {A : Type} (c : ext_call) (r : res A) : M A :=
  fun w => (r, with_ext_calls (ext_calls w ++ [c]) w).

Notation "x <- m ;; k" := (bind m (fun x => k))
  (at level 100, m at next level, right associativity, only parsing).
Notation "m ;; k" := (bind m (fun _ => k))
  (at level 100, right associativity, only parsing).

Definition st_error (s : string) : M unit := draw (UiError s).
Definition st_warning (s : string) : M unit := draw (UiWarning s).
Definition st_info (s : string) : M unit := draw (UiInfo s).
Definition st_success (s : string) : M unit := draw (UiSuccess s).
Definition st_write (s : string) : M unit := draw (UiWrite s).

(** [@st.cache_data] and [@st.cache_resource] with one string argument and
    no expiry: a hit returns the stored value and draws the stored elements
    again without running the function; a miss runs it and stores what it
    returned together with what it drew.  A call that raises stores
    nothing. *)
Definition st_cache {V : Type}
    (cache_of : world -> gmap string (cached V))
    (store : gmap string (cached V) -> world -> world)
    (body : string -> M V) (key : string) : M V :=
  fun w =>
    match cache_of w !! key with
    | Some e => (Ok (cached_value e), with_screen (screen w ++ cached_replay e) w)
    | None =>
        match body key w with
        | (Ok v, w') =>
            let drawn := drop (length (screen w)) (screen w') in
            (Ok v, store (<[key := mkCached v drawn]> (cache_of w')) w')
        | (Raised msg, w') => (Raised msg, w')
        end
    end.

(** ** Safe Error Message *)

Definition safe_message (context : string) : string :=
  lines [ "";
          "        Something went wrong while processing your request.";
          "";
          "        **Context:** " +:+ context;
          "";
          "        This may be due to:";
          "        - Temporary connection issues  ";
          "        - Missing or invalid credentials  ";
          "        - Insufficient permissions  ";
          "        - An unexpected BigQuery response  ";
          "";
          "        Please try again or contact the app administrator if the issue persists.";
          "        " ].

(** The [error] argument is accepted and not used. *)
Definition safe_bigquery_error (error : option string) (context : string) : M unit :=
  st_error (safe_message context).

(** ** BigQuery Client *)

Definition get_dynamic_client_body (E : env) (user_json : string) : M (option Client) :=
  try_except
    (c <- call (ExtBuildClient user_json) (build_client E user_json) ;;
     ret (Some c))
    (fun e =>
       st_error ("Invalid credentials: " +:+ e) ;;
       ret None).

Definition get_dynamic_client (E : env) : string -> M (option Client) :=
  st_cache resource_cache with_resource_cache (get_dynamic_client_body E).

(** ** Run Query *)

Definition no_client_message : string := "No BigQuery client available.".

Definition run_query_body (E : env) (query : string) : M query_result :=
  try_except
    (s <- get_session ;;
     match client s with
     | None => ret (None, Some no_client_message)
     | Some c =>
         df <- call (ExtQuery query) (query_and_wait E c query) ;;
         ret (Some df, None)
     end)
    (fun e =>
       safe_bigquery_error (Some e) "Running SQL query" ;;
       ret (None, Some e)).

Definition run_query (E : env) : string -> M query_result :=
  st_cache data_cache with_data_cache (run_query_body E).

(** ** Helpers *)

Definition public_project : string := "bigquery-public-data".

Definition get_all_datasets (E : env) : M (list string) :=
  s <- get_session ;;
  match client s with
  | None => ret []
  | Some c => call (ExtListDatasets public_project) (list_datasets E c public_project)
  end.

Definition schema_query (dataset : string) : string :=
  lines [ "";
          "        SELECT table_name";
          "        FROM `bigquery-public-data." +:+ dataset +:+ ".INFORMATION_SCHEMA.TABLES`";
          "    " ].

(** [pd.DataFrame({"table_id": []})]: a column built from an empty list is
    of dtype float64. *)
Definition no_tables : DataFrame := [("table_id", mkSeries DNumber [])].

Definition get_schema (E : env) (dataset : string) : M DataFrame :=
  r <- run_query E (schema_query dataset) ;;
  let (df, error) := (r : query_result) in
  if truthy_str error || is_none df then
    modify_session (set_query_error error) ;;
    safe_bigquery_error error "Loading dataset schema" ;;
    ret no_tables
  else
    match df with
    | None => raise "'NoneType' object has no attribute 'rename'"
    | Some d => ret (astype_str (rename_column "table_name" "table_id" d))
    end.

Definition user_key_handler (E : env) (key_json : option string) : M bool :=
  match key_json with
  | None | Some "" =>
      st_error "No key provided. Please paste your BigQuery key." ;;
      ret false
  | Some k =>
      modify_session (set_user_key_json (Some k)) ;;
      c <- get_dynamic_client E k ;;
      match c with
      | Some h =>
          st_success "Key saved successfully" ;;
          modify_session (set_client (Some h)) ;;
          modify_session (set_user_key_json None) ;;
          ret true
      | None =>
          st_error "Invalid credentials. Please try again." ;;
          ret false
      end
  end.

(** [pd.DataFrame(schema_rows)] for a list of name/type/mode dictionaries:
    no rows, no columns. *)
Definition schema_frame (fs : list field) : DataFrame :=
  match fs with
  | [] => []
  | _ :: _ =>
      [ ("name", mkSeries DObject (CText ∘ field_name <$> fs));
        ("type", mkSeries DObject (CText ∘ field_type <$> fs));
        ("mode", mkSeries DObject (CText ∘ field_mode <$> fs)) ]
  end.

Definition show_table_preview (E : env) (table_id : string) : M unit :=
  s <- get_session ;;
  if negb (truthy_str (selected_dataset s)) then
    st_warning "No dataset selected."
  else
    st_write ("**Schema**: `" +:+ table_id +:+ "`") ;;
    let table_ref :=
      "bigquery-public-data." +:+ py_str (selected_dataset s) +:+ "." +:+ table_id in
    match client s with
    | None => raise "'NoneType' object has no attribute 'get_table'"
    | Some c =>
        fs <- call (ExtGetTable table_ref) (get_table E c table_ref) ;;
        draw (UiDataframe (schema_frame fs))
    end.

(** ** Schema Change Detector *)

(** What [detect_schema_change] may be handed: [None], an object without a
    [columns] attribute, or a DataFrame. *)
Inductive observed : Type :=
  | ObsNone
  | ObsNoColumns
  | ObsFrame (df : DataFrame).

Definition detect_schema_change (df : observed) : M bool :=
  match df with
  | ObsNone | ObsNoColumns => ret false
  | ObsFrame d =>
      let cols := columns d in
      s <- get_session ;;
      match last_schema s with
      | None =>
          modify_session (set_last_schema (Some cols)) ;;
          ret true
      | Some last =>
          if decide (last ≠ cols) then
            modify_session (set_last_schema (Some cols)) ;;
            ret true
          else
            ret false
      end
  end.

(** ** Plotting *)

Definition encoding (x : string) (k : axis_kind) : string * string :=
  (x +:+ ":" +:+ type_letter k, x).

(** [alt.Color(legend_field) if legend_field else alt.value("steelblue")]. *)
Definition legend_color (legend_field : option string) : color_enc :=
  if truthy_str legend_field then ColorField (py_str legend_field)
  else ColorValue "steelblue".

Definition make_scatter_chart (df : DataFrame) (x y : string)
    (legend_field : option string) (x_type y_type : axis_kind) : chart :=
  mkChart df (MarkPoint 80) (encoding x x_type) (encoding y y_type)
          (legend_color legend_field) [x; y] None None None.

Definition make_line_chart (df : DataFrame) (x y : string)
    (legend_field : option string) (x_type y_type : axis_kind) : chart :=
  mkChart df (MarkLine true) (encoding x x_type) (encoding y y_type)
          (legend_color legend_field) [x; y] None None None.

Definition make_bar_chart (df : DataFrame) (x y : string)
    (legend_field : option string) (x_type y_type : axis_kind) : chart :=
  mkChart df MarkBar (encoding x x_type) (encoding y y_type)
          (legend_color legend_field) [x; y] None None None.

(** The loop over [df.columns] that hands every [object] column to
    [pd.to_numeric]. *)
Definition coerce_step (acc : res DataFrame) (col : string) : res DataFrame :=
  res_bind acc (fun df =>
    res_bind (df_getitem df col "dtype") (fun s =>
      if is_object (dtype_of s)
      then Ok (df_setitem df col (to_numeric_ignore s))
      else Ok df)).

Definition coerce_object_columns (df : DataFrame) : res DataFrame :=
  foldl coerce_step (Ok df) (columns df).

Definition numeric_cols (df : DataFrame) : list string :=
  columns (select_number df).

Definition categorical_cols (df : DataFrame) : list string :=
  columns (select_not_number df).

(** ["Q" if x in numeric_cols else "N"]. *)
Definition axis_type (numeric : list string) (x : string) : axis_kind :=
  if decide (x ∈ numeric) then Quantitative else Categorical.

(** [x if x in categorical_cols else (y if y in categorical_cols else None)]. *)
Definition choose_legend_field (x y : string) (categorical : list string) : option string :=
  if decide (x ∈ categorical) then Some x
  else if decide (y ∈ categorical) then Some y
  else None.

(** The chart [plotting_altair] hands to [st.altair_chart], once its two
    guards are passed. *)
Definition build_chart (df : DataFrame) (x y : string) (chart_type : option string)
    : res chart :=
  res_bind (coerce_object_columns df) (fun df =>
    let x_type := axis_type (numeric_cols df) x in
    let y_type := axis_type (numeric_cols df) y in
    let legend_field := choose_legend_field x y (categorical_cols df) in
    let c :=
      match chart_type with
      | Some "Scatter" => make_scatter_chart df x y legend_field x_type y_type
      | Some "Line" => make_line_chart df x y legend_field x_type y_type
      | _ => make_bar_chart df x y legend_field x_type y_type
      end in
    Ok (properties "container" 600 (py_str chart_type +:+ " Chart") c)).

(** [st.altair_chart(chart, ...)]: nothing is drawn when Altair raises. *)
Definition st_altair_chart (E : env) (c : chart) : M unit :=
  lift (altair_chart E c) ;;
  draw (UiChart c).

Definition plotting_altair (E : env) (df : option DataFrame)
    (x y chart_type : option string) : M unit :=
  match df with
  | None => st_warning "No data available to plot."
  | Some d =>
      if df_empty d then st_warning "No data available to plot."
      else
        match x, y with
        | Some x, Some y =>
            if decide (x ∉ columns d ∨ y ∉ columns d) then
              st_warning "Invalid column selection."
            else
              c <- lift (build_chart d x y chart_type) ;;
              st_altair_chart E c
        | _, _ => st_warning "Invalid column selection."
        end
  end.

(** The axis kind [plotting_altair] gives column [x] of [df]. *)
Definition infer_axis_kind (df : DataFrame) (x : string) : res axis_kind :=
  res_bind (coerce_object_columns df) (fun df => Ok (axis_type (numeric_cols df) x)).

(** ** SQL Submit Handler *)

Definition reset_chart_state (s : session_state) : session_state :=
  set_plot_ready false
    (set_chart_type_selected None (set_chart_y None (set_chart_x None s))).

(** In [not query or not query.strip()] the second test is made of a text
    only: [None] is settled by the first. *)
Definition submit_handler_main (E : env) (selected_dataset : string) : M unit :=
  s <- get_session ;;
  let blank :=
    modify_session (set_initial_df None) ;;
    modify_session (set_query_error (Some "Please enter a SQL query.")) in
  match main_query_text s with
  | None => raise "st.session_state has no attribute main_query_text"
  | Some None => blank
  | Some (Some query) =>
      if negb (truthy_str (Some query)) || negb (truthy_str (Some (strip query))) then
        blank
      else
        r <- run_query E query ;;
        let (df, error) := (r : query_result) in
        if truthy_str error || is_none df then
          modify_session (set_initial_df None) ;;
          modify_session (set_query_error error) ;;
          st_error "Query failed."
        else
          modify_session (set_initial_df df) ;;
          changed <- detect_schema_change
                       (match df with Some d => ObsFrame d | None => ObsNone end) ;;
          if (changed : bool) then modify_session reset_chart_state
          else ret tt
  end.

(** ** Plot Renderer *)

Definition render_plot_if_ready (E : env) : M unit :=
  s <- get_session ;;
  if negb (plot_ready s) then ret tt
  else plotting_altair E (initial_df s) (chart_x s) (chart_y s) (chart_type_selected s).

(** ** Main View *)

(** The lines of [build_main_view] that react to the dataset selector. *)
Definition select_dataset (E : env) (picked : string) : M unit :=
  s <- get_session ;;
  if decide (Some picked ≠ selected_dataset s) then
    modify_session (set_selected_dataset (Some picked)) ;;
    sch <- get_schema E picked ;;
    modify_session (set_schema sch) ;;
    modify_session (set_selected_table None)
  else ret tt.

(** [picked_dataset] and [picked_table] are what the two selectors return
    on this evaluation, and [typed_query] is the text the user left in the
    query area, [None] while the area shows the text it is created with.  A
    widget that has a key keeps its value under that key of the session
    state; the script reads [main_query_text] only, so this is the one
    widget key the session state of the model has.  The copy button and the
    submit button write nothing. *)
Definition build_main_view (E : env) (picked_dataset picked_table : string)
    (typed_query : option string) : M unit :=
  draw (UiTitle "BigQuery Explorer") ;;
  s <- get_session ;;
  if negb (truthy_opt (client s)) then
    st_info "Paste your BigQuery key in the sidebar to begin."
  else
    datasets <- get_all_datasets E ;;
    match datasets with
    | [] => st_warning "No datasets available."
    | _ :: _ =>
        select_dataset E picked_dataset ;;
        s <- get_session ;;
        ids <- lift (df_getitem (schema s) "table_id" "tolist") ;;
        match cell_str <$> values ids with
        | [] => st_info "No tables found in this dataset."
        | _ :: _ =>
            modify_session (set_selected_table (Some picked_table)) ;;
            let id_copy :=
              "`bigquery-public-data." +:+ picked_dataset +:+ "." +:+ picked_table +:+ "`" in
            st_write ("**Dataset ID**: " +:+ id_copy) ;;
            show_table_preview E picked_table ;;
            let value :=
              "SELECT *" +:+ nl +:+
              "FROM `bigquery-public-data." +:+ picked_dataset +:+ "." +:+ picked_table
                +:+ "`" +:+ nl +:+
              "LIMIT 10;" in
            modify_session (set_main_query_text (Some (Some (default value typed_query)))) ;;
            s <- get_session ;;
            match initial_df s with
            | None => ret tt
            | Some df =>
                st_write "Query Result:" ;;
                draw (UiDataframe df)
            end
        end
    end.

(** ** App Layout *)

(** The defaults of [init_state], on a session that holds no key yet. *)
Definition init_state : session_state :=
  mkSession no_tables None None None false None None None None None None None
            None None.

Definition fresh_world : world := mkWorld init_state ∅ ∅ [] [].

(** ** The states of the View Orchestrator *)

Inductive view_state : Type :=
  | NoClient
  | ClientReady
  | DatasetSelected
  | ResultReady
  | ChartReady.

(** The specification's reading of a session: each state needs the
    prerequisites of the ones before it. *)
Definition view_state_of (s : session_state) : view_state :=
  match client s, selected_dataset s, initial_df s, plot_ready s with
  | None, _, _, _ => NoClient
  | Some _, None, _, _ => ClientReady
  | Some _, Some _, None, _ => DatasetSelected
  | Some _, Some _, Some _, false => ResultReady
  | Some _, Some _, Some _, true => ChartReady
  end.

(** ** What the claims speak of *)

(** Exactly one component of the pair is not [None]. *)
Definition exactly_one (r : query_result) : Prop :=
  (is_Some r.1 ∧ r.2 = None) ∨ (r.1 = None ∧ is_Some r.2).

(** Every stored pair has exactly one component. *)
Definition cache_sound (c : gmap string (cached query_result)) : Prop :=
  ∀ q e, c !! q = Some e → exactly_one (cached_value e).

(** Every value of the column is accepted by [pd.to_numeric]. *)
Definition all_convert (s : Series) : Prop :=
  Forall (fun c => is_Some (cell_to_numeric c)) (values s).

(** The column has a numeric storage type, or is an [object] column whose
    values all convert. *)
Definition coerces_to_number (s : Series) : Prop :=
  dtype_of s = DNumber ∨ (dtype_of s = DObject ∧ all_convert s).

(** The keys that hold a query result and the chart built on it. *)
Definition downstream (s : session_state) :=
  (initial_df s, chart_x s, chart_y s, chart_type_selected s, plot_ready s,
   last_schema s).

(** A computation that writes none of those keys, nor the client. *)
Definition keeps_downstream {A : Type} (m : M A) : Prop :=
  ∀ w, downstream (session (m w).2) = downstream (session w) ∧
       client (session (m w).2) = client (session w).

(** The column after the coercion loop. *)
Definition coerce_column (p : string * Series) : string * Series :=
  if is_object (dtype_of p.2) then (p.1, to_numeric_ignore p.2) else p.

End Explorer.

Arguments cell : clear implicits.
Arguments Series : clear implicits.
Arguments chart : clear implicits.
Arguments ui_event : clear implicits.
Arguments observed : clear implicits.
Arguments env : clear implicits.
Arguments session_state : clear implicits.
Arguments query_result : clear implicits.
Arguments world : clear implicits.
Arguments M : clear implicits.
Arguments cached : clear implicits.
Arguments mkCached {num V} _ _.
Arguments cached_value {num V} _.
Arguments cached_replay {num V} _.

Abbreviation DataFrame num := (list (string * Series num)) (only parsing).

(** ** A concrete warehouse

    Clients are named by their project, numbers are integers or NaN, and
    only unsigned decimal text reads as a number. *)

Inductive demo_num : Type :=
  | DInt (z : Z)
  | DNaN.

Fixpoint digits_value (acc : Z) (s : string) : option Z :=
  match s with
  | EmptyString => Some acc
  | String a t =>
      match Ascii.is_nat a with
      | Some d => digits_value (10 * acc + Z.of_nat d) t
      | None => None
      end
  end.

Definition demo_to_num (s : string) : option demo_num :=
  match s with
  | EmptyString => None
  | _ => DInt <$> digits_value 0 s
  end.

Definition demo_num_str (n : demo_num) : string :=
  match n with
  | DInt z => pretty z
  | DNaN => "nan"
  end.

(** The table [SELECT 1 AS a, 2 AS b] returns. *)
Definition demo_df : DataFrame demo_num :=
  [ ("a", mkSeries DNumber [CNum (DInt 1)]);
    ("b", mkSeries DNumber [CNum (DInt 2)]) ].

Definition demo_tables : DataFrame demo_num :=
  [ ("table_name", mkSeries DObject [CText "t1"; CText "t2"]) ].

(** A charting library that takes every chart whose two axis labels hold
    no colon. *)
Definition demo_altair (c : chart demo_num) : res unit :=
  match String.index 0 ":" (enc_x c).2, String.index 0 ":" (enc_y c).2 with
  | None, None => Ok tt
  | _, _ => Raised "the text after the colon is not one of the valid encoding data types"
  end.

(** A warehouse that accepts the key ["good"], answers the table listing
    and [SELECT 1 AS a, 2 AS b], and rejects every other query with a
    message naming the account. *)
Definition demo_env : env string demo_num :=
  mkEnv
    (fun key => if decide (key = "good") then Ok "demo"
                else Raised "Service account info was not in the expected format")
    (fun _ q =>
       if decide (q = "SELECT 1 AS a, 2 AS b") then Ok demo_df
       else if decide (q = schema_query "d2") then Ok demo_tables
       else Raised "403 Access Denied: svc-7781@demo.iam.gserviceaccount.com")
    (fun _ _ => Ok ["d1"; "d2"])
    (fun _ _ => Ok [mkField "a" "INTEGER" "NULLABLE"])
    demo_altair.

(** A session in which a client is active, dataset [d1] is selected, the
    demo table is the current result and a scatter plot of [a] against [b]
    has been requested. *)
Definition demo_chart_session : session_state string demo_num :=
  mkSession no_tables (Some "d1") (Some demo_df) None true (Some "a") (Some "b")
            (Some "Scatter") None (Some "demo") None (Some "t1")
            (Some ["a"; "b"]) (Some (Some "SELECT 1 AS a, 2 AS b")).

Definition demo_chart_world : world string demo_num :=
  mkWorld demo_chart_session ∅ ∅ [] [].

(** A session with an active client and nothing else. *)
Definition demo_client_world : world string demo_num :=
  mkWorld (set_client (Some "demo") init_state) ∅ ∅ [] [].

(** The column [score] of the specification's scenario, in a table with a
    second column of numeric text and a missing value. *)
Definition score_column : Series demo_num :=
  mkSeries DObject [CText "1"; CText "2"; CText "bad"].

Definition count_column : Series demo_num :=
  mkSeries DObject [CText "10"; CText "20"; CNull].

Definition demo_scores : DataFrame demo_num :=
  [ ("score", score_column); ("n", count_column) ].


Definition demo_query : string := "SELECT 1 AS a, 2 AS b".

Definition demo_failing_query : string := "SELECT * FROM billing.invoices".

Definition demo_failure : string :=
  "403 Access Denied: svc-7781@demo.iam.gserviceaccount.com".

Definition demo_fresh_world : world string demo_num := fresh_world.

(** A client is active and the text area holds the failing query. *)
Definition demo_failing_world : world string demo_num :=
  mkWorld
    (mkSession no_tables (Some "d1") None None false None None None None
               (Some "demo") None (Some "t1") None (Some (Some demo_failing_query)))
    ∅ ∅ [] [].

(** A second session of the same process, opened after a first one ran the
    demo query: the session state is new, the caches are shared. *)
Definition demo_second_session : world string demo_num :=
  with_session (fun _ => init_state) (run_query demo_env demo_query demo_client_world).2.

(** A no-break space, a space, a line feed and an ideographic space. *)
Definition demo_blanks : list N := [0xA0; 0x20; 0x0A; 0x3000]%N.

(** The text area holds those four characters and nothing else. *)
Definition demo_blank_world : world string demo_num :=
  mkWorld
    (mkSession no_tables (Some "d1") (Some demo_df) None true (Some "a") (Some "b")
               (Some "Scatter") None (Some "demo") None (Some "t1")
               (Some ["a"; "b"]) (Some (Some (encode demo_blanks))))
    ∅ ∅ [] [].

(** A table in which two columns carry the label [a]. *)
Definition demo_twin : DataFrame demo_num :=
  [ ("a", mkSeries DNumber [CNum (DInt 1)]);
    ("a", mkSeries DObject [CText "x"]) ].

(** The demo warehouse, except that no table can be described. *)
Definition demo_env_locked : env string demo_num :=
  mkEnv (build_client demo_env) (query_and_wait demo_env) (list_datasets demo_env)
        (fun _ _ => Raised "404 Not found: Table") (altair_chart demo_env).

(** * Properties *)

Section Properties.

Set Default Proof Using "Type".

Context {Client num : Type}.
Variable to_num : string -> option num.
Variable nan : num.
Variable num_str : num -> string.

Implicit Types (E : env Client num) (w : world Client num) (q : string).

(** Reads a component back through the updates made to the world and to the
    session. *)
Ltac read_back :=
  unfold with_session, with_data_cache, with_resource_cache, with_screen,
    with_ext_calls, reset_chart_state, set_schema, set_selected_dataset,
    set_initial_df, set_query_error, set_plot_ready, set_chart_x, set_chart_y,
    set_chart_type_selected, set_user_key_json, set_client, set_selected_table,
    set_last_schema, set_main_query_text;
  simpl.

(** ** The cache decorator and the query executor *)

Lemma st_cache_hit {V : Type} (cache_of : world Client num -> gmap string (cached num V))
    store body key w e :
  cache_of w !! key = Some e →
  st_cache cache_of store body key w
  = (Ok (cached_value e), with_screen (screen w ++ cached_replay e) w).
Proof. intros H. unfold st_cache. by rewrite H. Qed.

Lemma run_query_body_eq E q w :
  run_query_body E q w =
  match client (session w) with
  | None => (Ok (None, Some no_client_message), w)
  | Some c =>
      let w1 := with_ext_calls (ext_calls w ++ [ExtQuery q]) w in
      match query_and_wait E c q with
      | Ok df => (Ok (Some df, None), w1)
      | Raised msg =>
          (Ok (None, Some msg),
           with_screen (screen w1 ++ [UiError (safe_message "Running SQL query")]) w1)
      end
  end.
Proof.
  unfold run_query_body, try_except, bind, get_session, call, ret,
    safe_bigquery_error, st_error, draw.
  destruct (client (session w)) as [c|]; [|done].
  by destruct (query_and_wait E c q).
Qed.

Lemma run_query_body_frame E q w :
  ∃ v w', run_query_body E q w = (Ok v, w') ∧ exactly_one v ∧
          session w' = session w ∧ data_cache w' = data_cache w ∧
          resource_cache w' = resource_cache w.
Proof.
  rewrite run_query_body_eq. unfold exactly_one.
  destruct (client (session w)) as [c|]; simpl.
  - destruct (query_and_wait E c q); eexists _, _; (split; [done|]).
    + split; [left; by split|done].
    + split; [right; by split|done].
  - eexists _, _. split; [done|]. split; [right; by split|done].
Qed.

Lemma run_query_hit E q w e :
  data_cache w !! q = Some e →
  run_query E q w = (Ok (cached_value e), with_screen (screen w ++ cached_replay e) w).
Proof. apply st_cache_hit. Qed.

Lemma run_query_miss E q w :
  data_cache w !! q = None →
  ∃ v w', run_query_body E q w = (Ok v, w') ∧
          run_query E q w
          = (Ok v, with_data_cache
                     (<[q := mkCached v (drop (length (screen w)) (screen w'))]>
                        (data_cache w)) w').
Proof.
  intros H. destruct (run_query_body_frame E q w) as (v & w' & Hb & _ & _ & Hc & _).
  exists v, w'. split; [done|].
  unfold run_query, st_cache. fold (run_query_body E q w).
  by rewrite H, Hb, Hc.
Qed.

(** [run_query] always returns, writes no session key and leaves the
    client cache alone. *)
Lemma run_query_frame E q w :
  ∃ v w', run_query E q w = (Ok v, w') ∧ session w' = session w ∧
          resource_cache w' = resource_cache w.
Proof.
  destruct (data_cache w !! q) as [e|] eqn:H.
  - rewrite (run_query_hit _ _ _ _ H). by eexists _, _.
  - destruct (run_query_miss E q w H) as (v & w' & Hb & ->).
    destruct (run_query_body_frame E q w) as (v' & w'' & Hb' & _ & Hs & _ & Hr).
    rewrite Hb in Hb'. simplify_eq. by eexists _, _.
Qed.

Lemma cache_sound_empty : cache_sound (∅ : gmap string (cached num (query_result num))).
Proof. intros q e H. by rewrite lookup_empty in H. Qed.

Lemma cache_sound_insert (c : gmap string (cached num (query_result num))) q v drawn :
  cache_sound c → exactly_one v → cache_sound (<[q := mkCached v drawn]> c).
Proof.
  intros Hc Hv q' e. rewrite lookup_insert. case_decide.
  - intros [= <-]. done.
  - apply Hc.
Qed.

(** C4: two calls of [run_query] with the same text, the session left as
    the first call found it, return the same pair, and the second one makes
    no call into the client library, whatever the warehouse would answer by
    then. *)
Theorem run_query_twice_same E1 E2 q w :
  ∃ v w1 w2,
    run_query E1 q w = (Ok v, w1) ∧
    run_query E2 q w1 = (Ok v, w2) ∧
    ext_calls w2 = ext_calls w1.
Proof.
  destruct (data_cache w !! q) as [e|] eqn:H.
  - rewrite (run_query_hit E1 q w e H).
    eexists _, _, _. split; [done|].
    by rewrite (run_query_hit E2 q (with_screen _ w) e H).
  - destruct (run_query_miss E1 q w H) as (v & w' & _ & ->).
    eexists _, _, _. split; [done|].
    by rewrite (run_query_hit E2 q (with_data_cache _ w') _ (lookup_insert_eq _ _ _)).
Qed.

(** C5: on a cache whose entries each have exactly one component,
    [run_query] returns a pair with exactly one component that is not
    [None], and leaves the cache such.  For a text that has no entry the
    pair is the table the warehouse answered and no error when the call
    succeeds, no table and the text of the failure when the call raises, and
    no table and the no-client message when the session has no client; for a
    text that has an entry it is the pair stored.  These are all the paths
    there are. *)
Theorem run_query_exactly_one E q w :
  cache_sound (data_cache w) →
  ∃ v w', run_query E q w = (Ok v, w') ∧ exactly_one v ∧ cache_sound (data_cache w') ∧
    (∀ c df, data_cache w !! q = None → client (session w) = Some c →
       query_and_wait E c q = Ok df → v = (Some df, None)) ∧
    (∀ c msg, data_cache w !! q = None → client (session w) = Some c →
       query_and_wait E c q = Raised msg → v = (None, Some msg)) ∧
    (data_cache w !! q = None → client (session w) = None →
       v = (None, Some no_client_message)) ∧
    (∀ e, data_cache w !! q = Some e → v = cached_value e).
Proof.
  intros Hs. destruct (data_cache w !! q) as [e|] eqn:H.
  - rewrite (run_query_hit E q w e H). eexists _, _. split; [done|].
    split; [by eapply Hs|]. split; [done|].
    do 3 (split; [by intros|]). by intros ? [= <-].
  - destruct (run_query_miss E q w H) as (v & w' & Hb & ->).
    destruct (run_query_body_frame E q w) as (v' & w'' & Hb' & Hv & _ & Hc & _).
    rewrite Hb in Hb'. simplify_eq.
    eexists _, _. split; [done|]. split; [done|].
    split; [simpl; by apply cache_sound_insert|].
    rewrite run_query_body_eq in Hb.
    split; [|split; [|split]].
    + intros c df _ Hcl Hq. rewrite Hcl in Hb. simpl in Hb. rewrite Hq in Hb.
      by simplify_eq.
    + intros c msg _ Hcl Hq. rewrite Hcl in Hb. simpl in Hb. rewrite Hq in Hb.
      by simplify_eq.
    + intros _ Hcl. rewrite Hcl in Hb. by simplify_eq.
    + by intros.
Qed.

(** C6, amended: with no client in the session, [run_query] makes no call
    into the client library; it returns [None] and the no-client message
    when the cache has no entry for the text, and the cached pair when it
    has one. *)
Theorem run_query_no_client E q w :
  client (session w) = None →
  ∃ v w',
    run_query E q w = (Ok v, w') ∧
    ext_calls w' = ext_calls w ∧
    (data_cache w !! q = None → v = (None, Some no_client_message)) ∧
    (∀ e, data_cache w !! q = Some e → v = cached_value e).
Proof.
  intros Hc. destruct (data_cache w !! q) as [e|] eqn:H.
  - rewrite (run_query_hit E q w e H). eexists _, _. split; [done|].
    split; [done|]. split; [done|]. by intros ? [= <-].
  - destruct (run_query_miss E q w H) as (v & w' & Hb & ->).
    rewrite run_query_body_eq, Hc in Hb. simplify_eq.
    eexists _, _. split; [done|]. by repeat split.
Qed.

(** C10: an entry of the cache is found by the query text alone.  A pair
    cached for [q] is what every later call with [q] returns, with the cache
    and the calls made left as they were, whatever became of the session
    and of the warehouse in between; and the no-client pair, once returned,
    still comes back after a client has been installed. *)
Theorem cache_keyed_by_text_only E E' q w (f : session_state Client num → session_state Client num) :
  (∀ e, data_cache w !! q = Some e →
     ∃ w', run_query E' q (with_session f w) = (Ok (cached_value e), w') ∧
           data_cache w' = data_cache w ∧ ext_calls w' = ext_calls w)
  ∧ (∃ v w1, run_query E q w = (Ok v, w1) ∧
       (∃ e, data_cache w1 !! q = Some e ∧ cached_value e = v) ∧
       ∃ w2, run_query E' q (with_session f w1) = (Ok v, w2))
  ∧ (client (session w) = None → data_cache w !! q = None →
     ∃ w1, run_query E q w = (Ok (None, Some no_client_message), w1) ∧
       ∀ c, ∃ w2, run_query E' q (with_session (set_client (Some c)) w1)
                  = (Ok (None, Some no_client_message), w2)).
Proof.
  assert (Hhit : ∀ w0 e g, data_cache w0 !! q = Some e →
            run_query E' q (with_session g w0)
            = (Ok (cached_value e),
               with_screen (screen w0 ++ cached_replay e) (with_session g w0))).
  { intros w0 e g H. exact (run_query_hit E' q (with_session g w0) e H). }
  split; [|split].
  - intros e H. rewrite (Hhit w e f H). by eexists.
  - destruct (data_cache w !! q) as [e|] eqn:H.
    + rewrite (run_query_hit E q w e H). eexists _, _. split; [done|].
      split; [by exists e|]. rewrite (Hhit (with_screen _ w) e f H). by eexists.
    + destruct (run_query_miss E q w H) as (v & w' & _ & ->).
      eexists _, _. split; [done|].
      split; [eexists; split; [apply lookup_insert_eq|done]|].
      rewrite (Hhit (with_data_cache _ w') _ f (lookup_insert_eq _ _ _)). by eexists.
  - intros Hc H. destruct (run_query_miss E q w H) as (v & w' & Hb & ->).
    rewrite run_query_body_eq, Hc in Hb. simplify_eq.
    eexists. split; [done|]. intros c.
    rewrite (Hhit (with_data_cache _ w') _ _ (lookup_insert_eq _ _ _)). by eexists.
Qed.

Lemma strip_truthy q :
  truthy_str (Some (strip q)) = true → truthy_str (Some q) = true.
Proof. by destruct q. Qed.

(** C3, amended: when the warehouse call of a fresh query raises,
    [run_query] draws one error element, the fixed text of
    [safe_bigquery_error] labelled with its context, which is the same
    whatever the failure; the pair it returns carries the text of the
    failure as it is.  For a text that [str.strip] does not empty, the
    submit handler then adds the fixed text "Query failed." and keeps the
    raw text in [query_error], which nothing draws. *)
Theorem query_failure_redacted E q w c msg dataset :
  data_cache w !! q = None →
  client (session w) = Some c →
  query_and_wait E c q = Raised msg →
  (∃ w', run_query E q w = (Ok (None, Some msg), w') ∧
         screen w' = screen w ++ [UiError (safe_message "Running SQL query")])
  ∧ (main_query_text (session w) = Some (Some q) →
     truthy_str (Some (strip q)) = true →
     ∃ w', submit_handler_main E dataset w = (Ok tt, w') ∧
           screen w' = screen w ++ [UiError (safe_message "Running SQL query");
                                    UiError "Query failed."] ∧
           query_error (session w') = Some msg ∧
           initial_df (session w') = None).
Proof.
  intros H Hc Hq.
  destruct (run_query_miss E q w H) as (v & w' & Hb & Hr).
  rewrite run_query_body_eq, Hc in Hb. simpl in Hb. rewrite Hq in Hb.
  simplify_eq. split.
  - eexists. split; [exact Hr|done].
  - intros Hm Hs. pose proof (strip_truthy q Hs) as Hs'.
    unfold submit_handler_main, bind, get_session. rewrite Hm.
    rewrite Hs, Hs'. cbn [negb orb].
    rewrite Hr. simpl. rewrite orb_true_r. simpl.
    eexists. split; [done|]. read_back.
    split; [|done]. by rewrite <- app_assoc.
Qed.

(** ** The schema change detector *)


(** ** The credential manager *)

Lemma get_dynamic_client_body_eq E k w :
  get_dynamic_client_body E k w =
  let w1 := with_ext_calls (ext_calls w ++ [ExtBuildClient k]) w in
  match build_client E k with
  | Ok c => (Ok (Some c), w1)
  | Raised msg =>
      (Ok None, with_screen (screen w1 ++ [UiError ("Invalid credentials: " +:+ msg)]) w1)
  end.
Proof.
  unfold get_dynamic_client_body, try_except, bind, call, ret, st_error, draw.
  by destruct (build_client E k).
Qed.

Lemma get_dynamic_client_frame E k w :
  ∃ v w', get_dynamic_client E k w = (Ok v, w') ∧ session w' = session w.
Proof.
  unfold get_dynamic_client, st_cache.
  destruct (resource_cache w !! k) as [e|]; [by eexists _, _|].
  rewrite get_dynamic_client_body_eq. simpl.
  destruct (build_client E k); by eexists _, _.
Qed.

(** C9: a key whose client cannot be built (nothing being cached for it)
    makes [get_dynamic_client] draw a credential error and return [None],
    and [user_key_handler] draw its own, return [False] and leave the
    session's client as it was; and whenever the handler returns anything
    but [True] (an empty key, a failure cached earlier) the client is as it
    was. *)
Theorem invalid_key_keeps_client E key w :
  (∀ k msg, key = Some k → k ≠ "" →
     resource_cache w !! k = None → build_client E k = Raised msg →
     ∃ w', user_key_handler E key w = (Ok false, w') ∧
           client (session w') = client (session w) ∧
           screen w' = screen w ++ [UiError ("Invalid credentials: " +:+ msg);
                                    UiError "Invalid credentials. Please try again."])
  ∧ (∀ r w', user_key_handler E key w = (r, w') → r ≠ Ok true →
       client (session w') = client (session w)).
Proof.
  split.
  - intros k msg -> Hk Hc Hb. unfold user_key_handler.
    destruct k as [|a k]; [done|].
    unfold bind, modify_session, get_dynamic_client, st_cache. simpl.
    rewrite Hc, get_dynamic_client_body_eq. simpl. rewrite Hb. simpl.
    eexists. split; [done|]. read_back. split; [done|]. by rewrite <- app_assoc.
  - intros r w'. unfold user_key_handler.
    destruct key as [[|a k]|]; try (intros [= <- <-]; intros; done).
    unfold bind, modify_session. simpl.
    destruct (get_dynamic_client_frame E (String a k)
                (with_session (set_user_key_json (Some (String a k))) w))
      as (v & w1 & -> & Hs).
    destruct v; simpl; intros [= <- <-]; [done|].
    intros _. simpl. by rewrite Hs.
Qed.

(** ** The main view *)

Section Keeps.

Context {A B : Type}.

Lemma keeps_ret (a : A) : keeps_downstream (ret (Client:=Client) (num:=num) a).
Proof. by intros w. Qed.

Lemma keeps_raise msg : keeps_downstream (raise (Client:=Client) (num:=num) (A:=A) msg).
Proof. by intros w. Qed.

Lemma keeps_lift (r : res A) : keeps_downstream (lift (Client:=Client) (num:=num) r).
Proof. by intros w. Qed.

Lemma keeps_call c (r : res A) : keeps_downstream (call (Client:=Client) (num:=num) c r).
Proof. by intros w. Qed.

Lemma keeps_bind (m : M Client num A) (k : A → M Client num B) :
  keeps_downstream m → (∀ a, keeps_downstream (k a)) → keeps_downstream (bind m k).
Proof.
  intros Hm Hk w. unfold bind. specialize (Hm w).
  destruct (m w) as [[a|msg] w1]; simpl in *; [|done].
  destruct (Hk a w1) as [H1 H2]. destruct Hm as [H3 H4].
  split; congruence.
Qed.

Lemma keeps_try_except (m : M Client num A) (h : string → M Client num A) :
  keeps_downstream m → (∀ e, keeps_downstream (h e)) →
  keeps_downstream (try_except m h).
Proof.
  intros Hm Hh w. unfold try_except. specialize (Hm w).
  destruct (m w) as [[a|msg] w1]; simpl in *; [done|].
  destruct (Hh msg w1) as [H1 H2]. destruct Hm as [H3 H4].
  split; congruence.
Qed.

Lemma keeps_st_cache (cache_of : world Client num → gmap string (cached num A))
    store (body : string → M Client num A) key :
  (∀ c w, session (store c w) = session w) →
  keeps_downstream (body key) →
  keeps_downstream (st_cache cache_of store body key).
Proof.
  intros Hst Hb w. unfold st_cache. destruct (cache_of w !! key); [done|].
  specialize (Hb w). destruct (body key w) as [[v|msg] w1]; simpl in *; [|done].
  by rewrite Hst.
Qed.

End Keeps.

Lemma keeps_get_session : keeps_downstream (get_session (Client:=Client) (num:=num)).
Proof. by intros w. Qed.

Lemma keeps_draw (e : ui_event num) : keeps_downstream (draw (Client:=Client) e).
Proof. by intros w. Qed.

Lemma keeps_modify_session (f : session_state Client num → session_state Client num) :
  (∀ s, downstream (f s) = downstream s ∧ client (f s) = client s) →
  keeps_downstream (modify_session f).
Proof. intros Hf w. apply Hf. Qed.

(** One step of a proof that a computation keeps the downstream keys. *)
Ltac keeps_step :=
  first
    [ apply keeps_bind; [|intros ?]
    | apply keeps_ret
    | apply keeps_raise
    | apply keeps_lift
    | apply keeps_call
    | apply keeps_get_session
    | apply keeps_draw
    | apply keeps_modify_session; by intros ?
    | apply keeps_try_except; [|intros ?]
    | apply keeps_st_cache; [by intros ? ?|]
    | case_match ].

Lemma keeps_run_query E q : keeps_downstream (run_query E q).
Proof.
  unfold run_query, run_query_body, safe_bigquery_error, st_error.
  repeat keeps_step.
Qed.

Lemma keeps_get_schema E dataset : keeps_downstream (get_schema num_str E dataset).
Proof.
  unfold get_schema, safe_bigquery_error, st_error.
  apply keeps_bind; [apply keeps_run_query|intros ?].
  repeat keeps_step.
Qed.

Lemma keeps_select_dataset E picked : keeps_downstream (select_dataset num_str E picked).
Proof.
  unfold select_dataset.
  apply keeps_bind; [apply keeps_get_session|intros ?].
  case_match; [|apply keeps_ret].
  apply keeps_bind; [by apply keeps_modify_session|intros ?].
  apply keeps_bind; [apply keeps_get_schema|intros ?].
  repeat keeps_step.
Qed.

Lemma keeps_build_main_view E picked_dataset picked_table typed_query :
  keeps_downstream (build_main_view num_str E picked_dataset picked_table typed_query).
Proof.
  unfold build_main_view, get_all_datasets, show_table_preview, st_info,
    st_warning, st_write.
  apply keeps_bind; [apply keeps_draw|intros ?].
  apply keeps_bind; [apply keeps_get_session|intros ?].
  case_match; [apply keeps_draw|].
  apply keeps_bind; [repeat keeps_step|intros ?].
  case_match; [apply keeps_draw|].
  apply keeps_bind; [apply keeps_select_dataset|intros ?].
  repeat keeps_step.
Qed.

(** [get_schema] always returns, and of the session it can only write
    [query_error]. *)
Lemma get_schema_session E dataset w :
  ∃ sch w', get_schema num_str E dataset w = (Ok sch, w') ∧
    ∃ e, session w' = set_query_error e (session w).
Proof.
  unfold get_schema, bind.
  destruct (run_query_frame E (schema_query dataset) w) as ([df error] & w1 & -> & Hs & _).
  destruct (truthy_str error || is_none df) eqn:Hf.
  - unfold modify_session, safe_bigquery_error, st_error, draw, ret. simpl.
    eexists _, _. split; [done|]. exists error. read_back. by rewrite Hs.
  - destruct df as [d|]; [|by rewrite orb_true_r in Hf].
    eexists _, _. split; [done|]. exists (query_error (session w)).
    rewrite Hs. by destruct (session w).
Qed.

(** C1, amended: when the dataset picked differs from the one stored, the
    dataset lines of the main view store it, store the table list that
    [get_schema] returns for it and set the selected table to [None]; they
    write neither the chart selection, nor [plot_ready], nor the current
    result, nor the stored schema tuple, so that a session in ResultReady or
    ChartReady stays there.  The main view as a whole writes none of these
    keys either. *)
Theorem dataset_switch_keeps_chart E picked picked_table typed_query w :
  (Some picked ≠ selected_dataset (session w) →
   ∃ sch w0 w',
     get_schema num_str E picked (with_session (set_selected_dataset (Some picked)) w)
     = (Ok sch, w0) ∧
     select_dataset num_str E picked w = (Ok tt, w') ∧
     selected_dataset (session w') = Some picked ∧
     schema (session w') = sch ∧
     selected_table (session w') = None ∧
     downstream (session w') = downstream (session w) ∧
     client (session w') = client (session w) ∧
     (is_Some (selected_dataset (session w)) →
      view_state_of (session w') = view_state_of (session w)))
  ∧ (let w' := (build_main_view num_str E picked picked_table typed_query w).2 in
     downstream (session w') = downstream (session w) ∧
     client (session w') = client (session w)).
Proof.
  split; [|apply keeps_build_main_view].
  intros Hne.
  destruct (get_schema_session E picked
              (with_session (set_selected_dataset (Some picked)) w))
    as (sch & w0 & Hg & e & Hs).
  assert (Hsel : select_dataset num_str E picked w
                 = (Ok tt, with_session (set_selected_table None)
                             (with_session (set_schema sch) w0))).
  { unfold select_dataset, bind, get_session. case_decide; [|done].
    unfold modify_session at 1. by rewrite Hg. }
  exists sch, w0. eexists. split; [done|]. split; [exact Hsel|].
  read_back. rewrite Hs. read_back.
  destruct (session w) as [? sd df ? pr ? ? ? ? cl ? ? ? ?]. simpl.
  repeat (split; [done|]).
  intros [d0 ->]. unfold view_state_of. simpl.
  by destruct cl, df, pr.
Qed.

(** ** The chart builder *)

Lemma unique_column (df : DataFrame num) x s s' :
  NoDup (columns df) → (x, s) ∈ df → (x, s') ∈ df → s = s'.
Proof.
  unfold columns. induction df as [|[c t] df IH]; simpl.
  - by intros _ ?%elem_of_nil.
  - rewrite NoDup_cons. intros [Hc Hn] H1 H2.
    apply elem_of_cons in H1 as [H1|H1]; apply elem_of_cons in H2 as [H2|H2];
      simplify_eq; auto.
    + destruct Hc. by apply (list_elem_of_fmap_2 fst) in H2.
    + destruct Hc. by apply (list_elem_of_fmap_2 fst) in H1.
Qed.

Lemma filter_absent_label (df : DataFrame num) x :
  x ∉ columns df → filter (fun p => p.1 = x) df = [].
Proof.
  unfold columns. induction df as [|[c t] df IH]; csimpl; [done|].
  rewrite not_elem_of_cons. intros [Hne Hx].
  rewrite filter_cons_False by (simpl; congruence). auto.
Qed.

Lemma filter_label (df : DataFrame num) x s :
  NoDup (columns df) → (x, s) ∈ df → filter (fun p => p.1 = x) df = [(x, s)].
Proof.
  unfold columns. induction df as [|[c t] df IH]; csimpl.
  - by intros _ ?%elem_of_nil.
  - rewrite NoDup_cons. intros [Hc Hn] H.
    apply elem_of_cons in H as [H|H].
    + simplify_eq. rewrite filter_cons_True by done.
      by rewrite filter_absent_label.
    + assert (c ≠ x).
      { intros ->. destruct Hc. by apply (list_elem_of_fmap_2 fst) in H. }
      rewrite filter_cons_False by done. auto.
Qed.

Lemma df_getitem_unique (df : DataFrame num) x attr s :
  NoDup (columns df) → (x, s) ∈ df → df_getitem df x attr = Ok s.
Proof. intros Hn H. unfold df_getitem. by rewrite (filter_label df x s). Qed.

Lemma coerce_column_label (p : string * Series num) :
  (coerce_column to_num nan p).1 = p.1.
Proof. unfold coerce_column. by destruct (is_object _). Qed.

(** Setting one column is coercing the columns of that label. *)
Lemma coerce_step_eq (df : DataFrame num) c :
  NoDup (columns df) → c ∈ columns df →
  coerce_step to_num nan (Ok df) c
  = Ok ((fun p => if decide (p.1 = c) then coerce_column to_num nan p else p) <$> df).
Proof.
  intros Hn Hc. apply list_elem_of_fmap in Hc as ([c' s] & -> & Hs). simpl in *.
  unfold coerce_step. simpl. rewrite (df_getitem_unique df c' "dtype" s Hn Hs). simpl.
  assert (Hp : ∀ p, p ∈ df → p.1 = c' → p = (c', s)).
  { intros [c t] Hp ?. simplify_eq/=. f_equal. by eapply unique_column. }
  destruct (is_object (dtype_of s)) eqn:Ho; f_equal.
  - unfold df_setitem. apply Forall_fmap_ext_1, Forall_forall. intros p Hin.
    case_decide as Hd; [|done].
    rewrite (Hp p Hin Hd). unfold coerce_column. simpl. by rewrite Ho.
  - rewrite <- (list_fmap_id df) at 1.
    apply Forall_fmap_ext_1, Forall_forall. intros p Hin.
    case_decide as Hd; [|done].
    rewrite (Hp p Hin Hd). unfold coerce_column. simpl. by rewrite Ho.
Qed.

Lemma coerce_loop (cols : list string) (df : DataFrame num) :
  NoDup cols → NoDup (columns df) → cols ⊆ columns df →
  foldl (coerce_step to_num nan) (Ok df) cols
  = Ok ((fun p => if decide (p.1 ∈ cols) then coerce_column to_num nan p else p) <$> df).
Proof.
  revert df. induction cols as [|c cols IH]; intros df Hc Hn Hsub; cbn [foldl].
  - f_equal. rewrite <- (list_fmap_id df) at 1.
    by apply Forall_fmap_ext_1, Forall_forall.
  - apply NoDup_cons in Hc as [Hc1 Hc2].
    rewrite coerce_step_eq; [|done|apply Hsub; by left].
    set (f := fun p => if decide (p.1 = c) then coerce_column to_num nan p else p).
    assert (Hcols : columns (f <$> df) = columns df).
    { unfold columns. rewrite <- list_fmap_compose.
      apply Forall_fmap_ext_1, Forall_forall. intros p _. unfold f. simpl.
      case_decide; [apply coerce_column_label|done]. }
    rewrite IH; [|done|by rewrite Hcols|].
    + f_equal. rewrite <- list_fmap_compose.
      apply Forall_fmap_ext_1, Forall_forall. intros p _. unfold f. simpl.
      destruct (decide (p.1 = c)) as [Heq|Hne].
      * rewrite coerce_column_label, Heq. rewrite decide_False by done.
        rewrite decide_True by (by left). done.
      * destruct (decide (p.1 ∈ cols)) as [Hin|Hin].
        -- rewrite decide_True by (by right). done.
        -- rewrite decide_False; [done|].
           rewrite not_elem_of_cons. done.
    + rewrite Hcols. intros x Hx. apply Hsub. by right.
Qed.

Lemma coerce_object_columns_eq (df : DataFrame num) :
  NoDup (columns df) →
  coerce_object_columns to_num nan df = Ok (coerce_column to_num nan <$> df).
Proof.
  intros Hn. unfold coerce_object_columns.
  rewrite coerce_loop; [|done|done|done].
  f_equal. apply Forall_fmap_ext_1, Forall_forall. intros p Hp.
  rewrite decide_True; [done|]. by apply (list_elem_of_fmap_2 fst).
Qed.

Lemma columns_coerced (df : DataFrame num) :
  columns (coerce_column to_num nan <$> df) = columns df.
Proof.
  unfold columns. rewrite <- list_fmap_compose.
  apply Forall_fmap_ext_1, Forall_forall. intros p _. apply coerce_column_label.
Qed.

Lemma elem_numeric_cols (df : DataFrame num) x s :
  NoDup (columns df) → (x, s) ∈ df →
  x ∈ numeric_cols df ↔ is_number (dtype_of s) = true.
Proof.
  intros Hn Hs. unfold numeric_cols, select_number, columns.
  rewrite list_elem_of_fmap. split.
  - intros ([c t] & -> & [Hp Hin]%list_elem_of_filter). simpl in *.
    by rewrite (unique_column df c s t Hn Hs Hin).
  - intros Hp. exists (x, s). split; [done|]. by apply list_elem_of_filter.
Qed.

Lemma elem_categorical_cols (df : DataFrame num) x s :
  NoDup (columns df) → (x, s) ∈ df →
  x ∈ categorical_cols df ↔ is_number (dtype_of s) = false.
Proof.
  intros Hn Hs. unfold categorical_cols, select_not_number, columns.
  rewrite list_elem_of_fmap. split.
  - intros ([c t] & -> & [Hp Hin]%list_elem_of_filter). simpl in *.
    by rewrite (unique_column df c s t Hn Hs Hin).
  - intros Hp. exists (x, s). split; [done|]. by apply list_elem_of_filter.
Qed.

Lemma coerced_is_number x (s : Series num) :
  is_number (dtype_of (coerce_column to_num nan (x, s)).2) = true
  ↔ coerces_to_number to_num nan s.
Proof.
  unfold coerce_column, coerces_to_number, all_convert, to_numeric_ignore. simpl.
  destruct (dtype_of s) eqn:Hd; simpl.
  - rewrite Hd. simpl. split; [by left|done].
  - destruct (mapM (cell_to_numeric to_num nan) (values s)) as [ns|] eqn:Hm; simpl.
    + split; [|done]. intros _. right. split; [done|].
      apply mapM_is_Some. by rewrite Hm.
    + rewrite Hd. simpl. split; [done|]. intros [?|[_ Hf]]; [done|].
      apply mapM_is_Some in Hf. rewrite Hm in Hf. by destruct Hf.
  - rewrite Hd. simpl. split; [done|]. by intros [?|[? _]].
Qed.

Lemma coerced_not_number x (s : Series num) :
  is_number (dtype_of (coerce_column to_num nan (x, s)).2) = false
  ↔ ¬ coerces_to_number to_num nan s.
Proof.
  rewrite <- coerced_is_number with (x := x).
  by destruct (is_number _).
Qed.

(** The table after the coercion loop, and the column [x] in it. *)
Lemma coerced_column (df : DataFrame num) x s :
  NoDup (columns df) → (x, s) ∈ df →
  coerce_object_columns to_num nan df = Ok (coerce_column to_num nan <$> df) ∧
  NoDup (columns (coerce_column to_num nan <$> df)) ∧
  (x, (coerce_column to_num nan (x, s)).2) ∈ coerce_column to_num nan <$> df.
Proof.
  intros Hn Hs. split; [by apply coerce_object_columns_eq|].
  split; [by rewrite columns_coerced|].
  apply list_elem_of_fmap. exists (x, s). split; [|done].
  rewrite <- (coerce_column_label (x, s)) at 1. by destruct (coerce_column _ _ _).
Qed.

(** The axis kind of a column is decided by the column alone. *)
Lemma infer_axis_kind_cases (df : DataFrame num) x s :
  NoDup (columns df) → (x, s) ∈ df →
  (∃ k, infer_axis_kind to_num nan df x = Ok k) ∧
  (infer_axis_kind to_num nan df x = Ok Quantitative
   ↔ coerces_to_number to_num nan s) ∧
  (infer_axis_kind to_num nan df x = Ok Categorical
   ↔ ¬ coerces_to_number to_num nan s).
Proof.
  intros Hn Hs.
  destruct (coerced_column df x s Hn Hs) as (Hco & Hn' & Hs').
  unfold infer_axis_kind, axis_type. rewrite Hco. simpl.
  pose proof (elem_numeric_cols _ x _ Hn' Hs') as Hnum.
  assert (Hq : (if decide (x ∈ numeric_cols (coerce_column to_num nan <$> df))
                then Quantitative else Categorical) = Quantitative
               ↔ coerces_to_number to_num nan s).
  { rewrite <- (coerced_is_number x s), <- Hnum. by case_decide. }
  assert (Hk : (if decide (x ∈ numeric_cols (coerce_column to_num nan <$> df))
                then Quantitative else Categorical) = Categorical
               ↔ ¬ coerces_to_number to_num nan s).
  { rewrite <- (coerced_is_number x s), <- Hnum. by case_decide. }
  split; [by eexists|].
  split; [split; [intros [= H]; by apply Hq|intros H; f_equal; by apply Hq]|].
  split; [intros [= H]; by apply Hk|intros H; f_equal; by apply Hk].
Qed.

(** C7: for a column [x] of a table whose labels are distinct, the axis
    kind is Quantitative exactly when the column has a numeric storage type
    or is an [object] column all of whose values [pd.to_numeric] converts,
    and Categorical otherwise; an [object] column holding "1", "2" and
    "bad" is Categorical as soon as "bad" does not read as a number. *)
Theorem infer_axis_kind_spec (df : DataFrame num) x s :
  NoDup (columns df) → (x, s) ∈ df →
  (∃ k, infer_axis_kind to_num nan df x = Ok k) ∧
  (infer_axis_kind to_num nan df x = Ok Quantitative
   ↔ coerces_to_number to_num nan s) ∧
  (infer_axis_kind to_num nan df x = Ok Categorical
   ↔ ¬ coerces_to_number to_num nan s) ∧
  (to_num "bad" = None →
   s = mkSeries DObject [CText "1"; CText "2"; CText "bad"] →
   infer_axis_kind to_num nan df x = Ok Categorical).
Proof.
  intros Hn Hs.
  destruct (infer_axis_kind_cases df x s Hn Hs) as (Hex & Hq & Hk).
  repeat (split; [done|]).
  intros Hbad ->. apply Hk.
  intros [Hd|[_ Hall]]; [done|].
  unfold all_convert in Hall. simpl in Hall.
  apply Forall_cons in Hall as [_ Hall]. apply Forall_cons in Hall as [_ Hall].
  apply Forall_cons in Hall as [Hb _]. simpl in Hb. rewrite Hbad in Hb.
  by destruct Hb.
Qed.

Lemma build_chart_color (df : DataFrame num) x y chart_type df' :
  coerce_object_columns to_num nan df = Ok df' →
  ∃ c, build_chart to_num nan df x y chart_type = Ok c ∧
       enc_color c = legend_color (choose_legend_field x y (categorical_cols df')).
Proof.
  intros H. unfold build_chart. rewrite H. simpl.
  eexists. split; [done|].
  destruct chart_type as [t|]; [|done].
  repeat (case_match; try done).
Qed.

(** C8: for a table whose labels are distinct and two of its columns [x]
    and [y], the chart is built, and the legend field chosen is [x] when [x]
    is Categorical, [y] when [x] is Quantitative and [y] Categorical, and
    none when both are Quantitative.  The colour of the chart is encoded by
    that field; it is the constant "steelblue" when there is none, and also
    when the field chosen is the empty label, which the test
    [if legend_field] takes for none.  With a table that has rows,
    [plotting_altair] draws this chart if Altair accepts it, and raises
    without drawing if Altair raises. *)
Theorem legend_field_spec E (df : DataFrame num) x y sx sy chart_type w :
  NoDup (columns df) → (x, sx) ∈ df → (y, sy) ∈ df →
  ∃ df' c kx ky,
    coerce_object_columns to_num nan df = Ok df' ∧
    build_chart to_num nan df x y chart_type = Ok c ∧
    infer_axis_kind to_num nan df x = Ok kx ∧
    infer_axis_kind to_num nan df y = Ok ky ∧
    choose_legend_field x y (categorical_cols df')
    = match kx, ky with
      | Categorical, _ => Some x
      | Quantitative, Categorical => Some y
      | Quantitative, Quantitative => None
      end ∧
    enc_color c
    = match kx, ky with
      | Categorical, _ =>
          if decide (x = "") then ColorValue "steelblue" else ColorField x
      | Quantitative, Categorical =>
          if decide (y = "") then ColorValue "steelblue" else ColorField y
      | Quantitative, Quantitative => ColorValue "steelblue"
      end ∧
    (df_empty df = false → altair_chart E c = Ok tt →
     plotting_altair to_num nan E (Some df) (Some x) (Some y) chart_type w
     = (Ok tt, with_screen (screen w ++ [UiChart c]) w)) ∧
    (df_empty df = false → ∀ msg, altair_chart E c = Raised msg →
     plotting_altair to_num nan E (Some df) (Some x) (Some y) chart_type w
     = (Raised msg, w)).
Proof.
  intros Hn Hx Hy.
  destruct (coerced_column df x sx Hn Hx) as (Hco & Hn' & Hx').
  destruct (coerced_column df y sy Hn Hy) as (_ & _ & Hy').
  destruct (build_chart_color df x y chart_type _ Hco) as (c & Hc & Hcol).
  destruct (infer_axis_kind_cases df x sx Hn Hx) as ((kx & Hkx) & Hxq & Hxk).
  destruct (infer_axis_kind_cases df y sy Hn Hy) as ((ky & Hky) & Hyq & Hyk).
  pose proof (elem_categorical_cols _ x _ Hn' Hx') as Hcx.
  pose proof (elem_categorical_cols _ y _ Hn' Hy') as Hcy.
  rewrite coerced_not_number in Hcx, Hcy.
  assert (Hleg : choose_legend_field x y
                   (categorical_cols (coerce_column to_num nan <$> df))
                 = match kx, ky with
                   | Categorical, _ => Some x
                   | Quantitative, Categorical => Some y
                   | Quantitative, Quantitative => None
                   end).
  { unfold choose_legend_field. destruct kx.
    - assert (Hnx : x ∉ categorical_cols (coerce_column to_num nan <$> df)).
      { rewrite Hcx. intros Hnot. by apply Hnot, Hxq. }
      rewrite (decide_False _ _ Hnx). destruct ky.
      + rewrite decide_False; [done|].
        rewrite Hcy. intros Hnot. by apply Hnot, Hyq.
      + rewrite decide_True; [done|]. by apply Hcy, Hyk.
    - rewrite decide_True; [done|]. by apply Hcx, Hxk. }
  assert (Hempty : ∀ l : string,
            legend_color (Some l)
            = if decide (l = "") then ColorValue "steelblue" else ColorField l).
  { intros [|a l]; [done|]. by rewrite decide_False. }
  assert (Hin : ¬ (x ∉ columns df ∨ y ∉ columns df)).
  { intros [H|H]; apply H;
      [by apply (list_elem_of_fmap_2 fst df (x, sx))
      |by apply (list_elem_of_fmap_2 fst df (y, sy))]. }
  exists (coerce_column to_num nan <$> df), c, kx, ky.
  do 4 (split; [done|]). split; [exact Hleg|].
  split; [|split].
  - rewrite Hcol, Hleg. destruct kx, ky; by rewrite ?Hempty.
  - intros He Ha. unfold plotting_altair. rewrite He, (decide_False _ _ Hin).
    unfold bind, lift, st_altair_chart, bind, lift, draw. by rewrite Hc, Ha.
  - intros He msg Ha. unfold plotting_altair. rewrite He, (decide_False _ _ Hin).
    unfold bind, lift, st_altair_chart, bind, lift. by rewrite Hc, Ha.
Qed.

(** ** Further properties of the query executor *)

(** As [read_back], but by need: an update whose component is not asked
    for is dropped before it is looked into. *)
Ltac read_fields :=
  lazy beta iota delta
    [with_session with_data_cache with_resource_cache with_screen
     with_ext_calls reset_chart_state set_schema set_selected_dataset
     set_initial_df set_query_error set_plot_ready set_chart_x set_chart_y
     set_chart_type_selected set_user_key_json set_client set_selected_table
     set_last_schema set_main_query_text downstream
     session data_cache resource_cache screen ext_calls schema
     selected_dataset initial_df query_error plot_ready chart_x chart_y
     chart_type_selected user_key_json client full_dataset_path
     selected_table last_schema main_query_text].

(** The long texts stay folded from here on. *)
Local Arguments safe_message : simpl never.
Local Arguments schema_query : simpl never.
Local Arguments public_project : simpl never.
Local Arguments no_client_message : simpl never.

(** X1: [run_query] calls the warehouse once when the text has no cache
    entry and a client is active, and not at all otherwise. *)
Theorem run_query_calls E q w :
  ∃ v w', run_query E q w = (Ok v, w') ∧
    ext_calls w' = ext_calls w ++
      match data_cache w !! q, client (session w) with
      | None, Some _ => [ExtQuery q]
      | _, _ => []
      end.
Proof.
  destruct (data_cache w !! q) as [e|] eqn:H.
  - rewrite (run_query_hit E q w e H). eexists _, _. split; [done|].
    simpl. by rewrite app_nil_r.
  - destruct (run_query_miss E q w H) as (v & w' & Hb & ->).
    eexists _, _. split; [done|]. simpl.
    rewrite run_query_body_eq in Hb.
    destruct (client (session w)) as [c|]; simpl in Hb.
    + destruct (query_and_wait E c q); by simplify_eq.
    + simplify_eq. by rewrite app_nil_r.
Qed.

(** X2: [run_query] never removes or replaces an entry of its cache; the
    keys after a call are those before it and the text submitted. *)
Theorem run_query_cache_grows E q w :
  ∃ v w', run_query E q w = (Ok v, w') ∧
    data_cache w ⊆ data_cache w' ∧
    dom (data_cache w') = dom (data_cache w) ∪ {[q]}.
Proof.
  destruct (data_cache w !! q) as [e|] eqn:H.
  - rewrite (run_query_hit E q w e H). eexists _, _. split; [done|].
    simpl. split; [done|].
    symmetry. rewrite (union_comm_L (dom (data_cache w))).
    apply subseteq_union_1_L, singleton_subseteq_l, elem_of_dom. by eexists.
  - destruct (run_query_miss E q w H) as (v & w' & Hb & ->).
    eexists _, _. split; [done|]. simpl.
    split; [by apply insert_subseteq|].
    rewrite dom_insert_L. apply union_comm_L.
Qed.

(** ** Further properties of the credential manager *)

Lemma get_dynamic_client_hit E k w e :
  resource_cache w !! k = Some e →
  get_dynamic_client E k w
  = (Ok (cached_value e), with_screen (screen w ++ cached_replay e) w).
Proof. apply st_cache_hit. Qed.

Lemma get_dynamic_client_miss E k w :
  resource_cache w !! k = None →
  ∃ v w', get_dynamic_client_body E k w = (Ok v, w') ∧
          session w' = session w ∧ data_cache w' = data_cache w ∧
          get_dynamic_client E k w
          = (Ok v, with_resource_cache
                     (<[k := mkCached v (drop (length (screen w)) (screen w'))]>
                        (resource_cache w)) w').
Proof.
  intros H. unfold get_dynamic_client, st_cache.
  rewrite H, get_dynamic_client_body_eq. simpl.
  destruct (build_client E k); by eexists _, _.
Qed.

(** X3: two calls of [get_dynamic_client] with the same key return the
    same value, a client or [None], and the second one does not build
    again, whatever the library would answer by then: a key that failed once
    keeps failing. *)
Theorem get_dynamic_client_twice_same E1 E2 k w :
  ∃ v w1 w2,
    get_dynamic_client E1 k w = (Ok v, w1) ∧
    get_dynamic_client E2 k w1 = (Ok v, w2) ∧
    ext_calls w2 = ext_calls w1.
Proof.
  destruct (resource_cache w !! k) as [e|] eqn:H.
  - rewrite (get_dynamic_client_hit E1 k w e H).
    eexists _, _, _. split; [done|].
    by rewrite (get_dynamic_client_hit E2 k (with_screen _ w) e H).
  - destruct (get_dynamic_client_miss E1 k w H) as (v & w' & _ & _ & _ & ->).
    eexists _, _, _. split; [done|].
    by rewrite (get_dynamic_client_hit E2 k (with_resource_cache _ w') _
                  (lookup_insert_eq _ _ _)).
Qed.

(** X4: a key for which a client is built, or was cached, makes
    [user_key_handler] return [True], install that client and clear
    [user_key_json]; the current result, the chart selection, the selected
    dataset and the query cache stay as they were. *)
Theorem valid_key_installs_client E k h w :
  k ≠ "" →
  (resource_cache w !! k = None ∧ build_client E k = Ok h) ∨
  (∃ e, resource_cache w !! k = Some e ∧ cached_value e = Some h) →
  ∃ w', user_key_handler E (Some k) w = (Ok true, w') ∧
        client (session w') = Some h ∧
        user_key_json (session w') = None ∧
        last (screen w') = Some (UiSuccess "Key saved successfully") ∧
        downstream (session w') = downstream (session w) ∧
        selected_dataset (session w') = selected_dataset (session w) ∧
        data_cache w' = data_cache w.
Proof.
  intros Hk Hc.
  set (w0 := with_session (set_user_key_json (Some k)) w).
  assert (Hg : ∃ w1, get_dynamic_client E k w0 = (Ok (Some h), w1) ∧
                     session w1 = session w0 ∧ data_cache w1 = data_cache w0).
  { destruct Hc as [[Hn Hb]|(e & He & Hv)].
    - destruct (get_dynamic_client_miss E k w0 Hn) as (v & w1 & Hbody & Hs & Hd & ->).
      rewrite get_dynamic_client_body_eq, Hb in Hbody. cbv zeta in Hbody.
      injection Hbody as <- _. by eexists.
    - rewrite (get_dynamic_client_hit E k w0 e He), Hv. by eexists. }
  destruct Hg as (w1 & Hg & Hs & Hd).
  exists (with_session (set_user_key_json None)
            (with_session (set_client (Some h))
               (with_screen (screen w1 ++ [UiSuccess "Key saved successfully"]) w1))).
  split.
  - unfold user_key_handler. destruct k as [|a k]; [done|].
    unfold bind at 1. unfold modify_session at 1. unfold bind at 1.
    fold w0. by rewrite Hg.
  - clear Hg. subst w0. destruct w1 as [s1 dc1 rc1 sc1 ec1].
    cbn [session data_cache] in Hs, Hd. subst s1 dc1.
    destruct w as [s dc rc sc ec]. destruct s.
    read_fields. rewrite last_snoc. by repeat split.
Qed.

(** X5: when [user_key_handler] turns down a key that is not empty, the
    key stays in [user_key_json] and nothing else of the session is
    written; an absent or empty key draws an error, makes no call and
    leaves the world otherwise as it was. *)
Theorem rejected_key_effects E w :
  (∀ k r w', k ≠ "" → user_key_handler E (Some k) w = (r, w') → r ≠ Ok true →
     session w' = set_user_key_json (Some k) (session w)) ∧
  user_key_handler E None w
  = (Ok false,
     with_screen (screen w ++ [UiError "No key provided. Please paste your BigQuery key."]) w) ∧
  user_key_handler E (Some "") w = user_key_handler E None w.
Proof.
  split; [|done].
  intros k r w' Hk. unfold user_key_handler.
  destruct k as [|a k]; [done|].
  unfold bind, modify_session. simpl.
  destruct (get_dynamic_client_frame E (String a k)
              (with_session (set_user_key_json (Some (String a k))) w))
    as (v & w1 & -> & Hs).
  destruct v; simpl; intros [= <- <-]; [done|].
  intros _. simpl. by rewrite Hs.
Qed.

(** ** Further properties of the schema change detector *)

(** X6: after [detect_schema_change] has seen a DataFrame, the stored
    tuple is that of its column names, whether or not a change was
    reported, no other key is written, and a second call with the same
    DataFrame reports no change. *)
Theorem detect_schema_change_twice w (d : DataFrame num) :
  ∃ b w1,
    detect_schema_change (ObsFrame d) w = (Ok b, w1) ∧
    session w1 = set_last_schema (Some (columns d)) (session w) ∧
    detect_schema_change (ObsFrame d) w1 = (Ok false, w1).
Proof.
  unfold detect_schema_change, bind, get_session, modify_session, ret.
  destruct (last_schema (session w)) as [last|] eqn:Hl.
  - case_decide as Hd.
    + eexists _, _. split; [done|]. split; [done|].
      simpl. by rewrite decide_False by (intros H; by apply H).
    + subst last. eexists _, _. split; [done|].
      split; [destruct (session w); by simplify_eq/=|].
      rewrite Hl. by rewrite decide_False by (intros H; by apply H).
  - eexists _, _. split; [done|]. split; [done|].
    simpl. by rewrite decide_False by (intros H; by apply H).
Qed.

(** ** Further properties of the submit handler *)

Lemma lstrip_space cp s :
  py_space cp = true → lstrip (utf8 cp +:+ s) = lstrip s.
Proof.
  unfold py_space. intros H.
  apply existsb_exists in H as (x & Hin & Heq%N.eqb_eq). subst x.
  simpl in Hin. repeat (destruct Hin as [<-|Hin]; [reflexivity|]). destruct Hin.
Qed.

Lemma strip_encode_spaces cps :
  Forall (fun cp => py_space cp = true) cps → strip (encode cps) = "".
Proof.
  intros H. unfold strip.
  assert (Hl : lstrip (encode cps) = "").
  { induction H as [|cp cps Hcp _ IH]; [done|]. simpl. by rewrite lstrip_space. }
  by rewrite Hl.
Qed.

(** X7: a query text that is [None], empty, or made of whitespace
    characters only, those beyond ASCII included, is turned down by the
    submit handler without a call, without a cache lookup and without
    drawing anything: the current result is dropped and [query_error] asks
    for a query. *)
Theorem blank_query_rejected E dataset text w :
  main_query_text (session w) = Some text →
  text = None ∨
  (∃ cps, Forall (fun cp => py_space cp = true) cps ∧ text = Some (encode cps)) →
  submit_handler_main E dataset w
  = (Ok tt,
     with_session (set_query_error (Some "Please enter a SQL query."))
       (with_session (set_initial_df None) w)).
Proof.
  intros Hm Hb. unfold submit_handler_main, bind, get_session. rewrite Hm.
  destruct Hb as [->|(cps & Hcps & ->)]; [done|].
  rewrite (strip_encode_spaces cps Hcps).
  change (truthy_str (Some "")) with false. by rewrite orb_true_r.
Qed.

Lemma render_not_ready E w :
  plot_ready (session w) = false → render_plot_if_ready to_num nan E w = (Ok tt, w).
Proof. intros H. unfold render_plot_if_ready, bind, get_session. by rewrite H. Qed.

Lemma render_no_data E w :
  plot_ready (session w) = true → initial_df (session w) = None →
  render_plot_if_ready to_num nan E w
  = (Ok tt, with_screen (screen w ++ [UiWarning "No data available to plot."]) w).
Proof.
  intros H1 H2. unfold render_plot_if_ready, bind, get_session.
  by rewrite H1, H2.
Qed.

(** X8: when [run_query] returns a table for the text in the query area,
    a text that [str.strip] does not empty, the submit handler stores it as the current result and stores its
    column tuple, and does not touch [query_error]; if the tuple is the one
    stored before, the chart selection and [plot_ready] are kept, and if
    not, they are reset and the plot renderer then draws nothing. *)
Theorem submit_stores_result E dataset q w (df : DataFrame num) w1 :
  main_query_text (session w) = Some (Some q) →
  truthy_str (Some (strip q)) = true →
  run_query E q w = (Ok (Some df, None), w1) →
  ∃ w', submit_handler_main E dataset w = (Ok tt, w') ∧
    initial_df (session w') = Some df ∧
    last_schema (session w') = Some (columns df) ∧
    query_error (session w') = query_error (session w) ∧
    screen w' = screen w1 ∧
    (last_schema (session w) = Some (columns df) →
       chart_x (session w') = chart_x (session w) ∧
       chart_y (session w') = chart_y (session w) ∧
       chart_type_selected (session w') = chart_type_selected (session w) ∧
       plot_ready (session w') = plot_ready (session w)) ∧
    (last_schema (session w) ≠ Some (columns df) →
       chart_x (session w') = None ∧
       chart_y (session w') = None ∧
       chart_type_selected (session w') = None ∧
       plot_ready (session w') = false ∧
       render_plot_if_ready to_num nan E w' = (Ok tt, w')).
Proof.
  intros Hm Hs Hr. pose proof (strip_truthy q Hs) as Hs'.
  assert (Hsess : session w1 = session w).
  { destruct (run_query_frame E q w) as (v & w1' & Hr' & Hsess & _).
    rewrite Hr in Hr'. by injection Hr' as _ <-. }
  set (w2 := with_session (set_initial_df (Some df)) w1).
  assert (Hsub : submit_handler_main E dataset w
                 = (Ok tt,
                    if decide (last_schema (session w) = Some (columns df)) then w2
                    else with_session reset_chart_state
                           (with_session (set_last_schema (Some (columns df))) w2))).
  { unfold submit_handler_main, bind, get_session. rewrite Hm, Hs, Hs'.
    cbn [negb orb]. rewrite Hr. cbn [truthy_str is_none orb].
    unfold modify_session at 1. fold w2.
    unfold detect_schema_change, bind, get_session, modify_session, ret.
    assert (Hl : last_schema (session w2) = last_schema (session w)).
    { rewrite <- Hsess. reflexivity. }
    rewrite Hl. destruct (last_schema (session w)) as [last|].
    - case_decide as Hd.
      + rewrite decide_False; [done|]. intros [= ?]. by destruct Hd.
      + subst last. by rewrite decide_True.
    - by rewrite decide_False. }
  destruct (decide (last_schema (session w) = Some (columns df))) as [Hd|Hd].
  - exists w2. split; [exact Hsub|].
    split; [reflexivity|].
    split; [rewrite <- Hd, <- Hsess; reflexivity|].
    split; [rewrite <- Hsess; reflexivity|].
    split; [reflexivity|].
    split; [intros _; rewrite <- Hsess; repeat split; reflexivity|].
    intros H. destruct (H Hd).
  - eexists. split; [exact Hsub|].
    split; [reflexivity|]. split; [reflexivity|].
    split; [rewrite <- Hsess; reflexivity|]. split; [reflexivity|].
    split; [intros H; destruct (Hd H)|].
    intros _. do 4 (split; [reflexivity|]).
    apply render_not_ready. reflexivity.
Qed.

(** X9: when [run_query] returns no table for the text in the query area,
    a text that [str.strip] does not empty, the submit handler drops the current result, keeps the error in
    [query_error] and draws "Query failed."; the chart selection,
    [plot_ready] and the stored column tuple stay, so that a plot asked for
    earlier is answered by the renderer with "No data available to
    plot.". *)
Theorem failed_submit_discards_result E dataset q w err w1 :
  main_query_text (session w) = Some (Some q) →
  truthy_str (Some (strip q)) = true →
  run_query E q w = (Ok (None, err), w1) →
  ∃ w', submit_handler_main E dataset w = (Ok tt, w') ∧
    initial_df (session w') = None ∧
    query_error (session w') = err ∧
    screen w' = screen w1 ++ [UiError "Query failed."] ∧
    chart_x (session w') = chart_x (session w) ∧
    chart_y (session w') = chart_y (session w) ∧
    chart_type_selected (session w') = chart_type_selected (session w) ∧
    plot_ready (session w') = plot_ready (session w) ∧
    last_schema (session w') = last_schema (session w) ∧
    (plot_ready (session w) = true →
     render_plot_if_ready to_num nan E w'
     = (Ok tt, with_screen (screen w' ++ [UiWarning "No data available to plot."]) w')).
Proof.
  intros Hm Hs Hr. pose proof (strip_truthy q Hs) as Hs'.
  assert (Hsess : session w1 = session w).
  { destruct (run_query_frame E q w) as (v & w1' & Hr' & Hsess & _).
    rewrite Hr in Hr'. by injection Hr' as _ <-. }
  assert (Hsub : submit_handler_main E dataset w
                 = (Ok tt,
                    with_screen (screen w1 ++ [UiError "Query failed."])
                      (with_session (set_query_error err)
                         (with_session (set_initial_df None) w1)))).
  { unfold submit_handler_main, bind, get_session. rewrite Hm, Hs, Hs'.
    cbn [negb orb]. rewrite Hr. cbn [is_none]. by rewrite orb_true_r. }
  eexists. split; [exact Hsub|].
  do 3 (split; [reflexivity|]).
  do 5 (split; [rewrite <- Hsess; reflexivity|]).
  intros Hp. apply render_no_data; [|reflexivity].
  rewrite <- Hp, <- Hsess. reflexivity.
Qed.

(** ** Further properties of the chart builder *)

(** X10: without a table, or with a table that has no column or no row,
    [plotting_altair] draws "No data available to plot."; with a table
    that has rows but an axis that is unset or is not one of its columns, it
    draws "Invalid column selection."; in both cases it returns and draws no
    chart. *)
Theorem plotting_altair_guards E (df : option (DataFrame num)) x y chart_type w :
  (match df with None => True | Some d => df_empty d = true end →
   plotting_altair to_num nan E df x y chart_type w
   = (Ok tt, with_screen (screen w ++ [UiWarning "No data available to plot."]) w)) ∧
  (∀ d, df = Some d → df_empty d = false →
     ¬ (∃ x' y', x = Some x' ∧ y = Some y' ∧ x' ∈ columns d ∧ y' ∈ columns d) →
     plotting_altair to_num nan E df x y chart_type w
     = (Ok tt, with_screen (screen w ++ [UiWarning "Invalid column selection."]) w)).
Proof.
  unfold plotting_altair, st_warning, draw. split.
  - destruct df as [d|]; [|done]. by intros ->.
  - intros d -> He Hn. rewrite He.
    destruct x as [x'|], y as [y'|]; try done.
    case_decide as Hd; [done|]. destruct Hn. exists x', y'.
    repeat split; try done.
    + destruct (decide (x' ∈ columns d)); [done|]. destruct Hd. by left.
    + destruct (decide (y' ∈ columns d)); [done|]. destruct Hd. by right.
Qed.

(** X11: whatever it is handed, [plotting_altair] writes no session key
    and no cache and makes no call: it adds at most one element to the
    page, and none when it raises. *)
Theorem plotting_altair_only_draws E (df : option (DataFrame num)) x y chart_type w :
  ∃ r l, plotting_altair to_num nan E df x y chart_type w
         = (r, with_screen (screen w ++ l) w) ∧
         (length l ≤ 1)%nat ∧ (r ≠ Ok tt → l = []).
Proof.
  assert (Hw : w = with_screen (screen w ++ []) w).
  { unfold with_screen. rewrite app_nil_r. by destruct w. }
  unfold plotting_altair, st_warning, st_altair_chart, draw, bind, lift.
  destruct df as [d|]; [|by eexists _, [_]].
  destruct (df_empty d); [by eexists _, [_]|].
  destruct x as [x'|], y as [y'|]; try by eexists _, [_].
  case_decide; [by eexists _, [_]|].
  destruct (build_chart to_num nan d x' y' chart_type) as [c|msg].
  - destruct (altair_chart E c) as [[]|msg].
    + by eexists _, [_].
    + exists (Raised msg), []. split; [by rewrite <- Hw|]. split; [simpl; lia|done].
  - exists (Raised msg), []. split; [by rewrite <- Hw|]. split; [simpl; lia|done].
Qed.

(** X12: for a table whose labels are distinct, the chart is built on the
    coerced table, with a point mark for "Scatter", a line mark for "Line"
    and a bar mark for every other chart type, an unset one included; its
    title is the chart type as text followed by " Chart", its tooltip shows
    [x] and [y], and each axis is encoded as its label, a colon and the
    letter of its inferred kind. *)
Theorem build_chart_shape (df : DataFrame num) x y chart_type :
  NoDup (columns df) →
  ∃ c kx ky,
    build_chart to_num nan df x y chart_type = Ok c ∧
    infer_axis_kind to_num nan df x = Ok kx ∧
    infer_axis_kind to_num nan df y = Ok ky ∧
    chart_data c = coerce_column to_num nan <$> df ∧
    enc_x c = (x +:+ ":" +:+ type_letter kx, x) ∧
    enc_y c = (y +:+ ":" +:+ type_letter ky, y) ∧
    enc_tooltip c = [x; y] ∧
    chart_title c = Some (py_str chart_type +:+ " Chart") ∧
    chart_width c = Some "container" ∧
    chart_height c = Some 600%Z ∧
    (chart_type = Some "Scatter" → chart_mark c = MarkPoint 80) ∧
    (chart_type = Some "Line" → chart_mark c = MarkLine true) ∧
    (chart_type ≠ Some "Scatter" → chart_type ≠ Some "Line" →
     chart_mark c = MarkBar).
Proof.
  intros Hn. unfold build_chart, infer_axis_kind.
  rewrite (coerce_object_columns_eq df Hn). simpl.
  eexists _, _, _. split; [done|]. split; [done|]. split; [done|].
  split; [by repeat case_match|]. split; [by repeat case_match|].
  split; [by repeat case_match|]. split; [by repeat case_match|].
  split; [done|]. split; [done|]. split; [done|].
  split; [by intros ->|]. split; [by intros ->|].
  intros H1 H2. destruct chart_type as [t|]; [|done].
  repeat (case_match; try done); subst; by (destruct H1 || destruct H2).
Qed.

Lemma coerce_column_twice (p : string * Series num) :
  coerce_column to_num nan (coerce_column to_num nan p) = coerce_column to_num nan p.
Proof.
  destruct p as [c s]. unfold coerce_column, to_numeric_ignore. simpl.
  destruct (is_object (dtype_of s)) eqn:Ho; simpl; [|by rewrite Ho].
  destruct (mapM (cell_to_numeric to_num nan) (values s)) eqn:Hm; simpl; [done|].
  by rewrite Ho, Hm.
Qed.

Lemma coerced_object_stuck (p : string * Series num) :
  dtype_of (coerce_column to_num nan p).2 = DObject →
  ¬ all_convert to_num nan (coerce_column to_num nan p).2.
Proof.
  destruct p as [c s]. unfold coerce_column, to_numeric_ignore, all_convert. simpl.
  destruct (is_object (dtype_of s)) eqn:Ho; simpl.
  - destruct (mapM (cell_to_numeric to_num nan) (values s)) eqn:Hm; simpl; [done|].
    intros _ Hf. apply mapM_is_Some in Hf. rewrite Hm in Hf. by destruct Hf.
  - intros Hd. by rewrite Hd in Ho.
Qed.

(** X13: on a table whose labels are distinct the coercion loop returns a
    table with the same labels in the same order; columns that are not of
    dtype [object] are left as they are, a column still of dtype [object]
    afterwards holds a value that does not convert, and running the loop on
    its own result changes nothing. *)
Theorem coerce_object_columns_settles (df : DataFrame num) :
  NoDup (columns df) →
  ∃ df', coerce_object_columns to_num nan df = Ok df' ∧
    columns df' = columns df ∧
    (∀ p, p ∈ df → is_object (dtype_of p.2) = false → p ∈ df') ∧
    Forall (fun p => dtype_of p.2 = DObject → ¬ all_convert to_num nan p.2) df' ∧
    coerce_object_columns to_num nan df' = Ok df'.
Proof.
  intros Hn. exists (coerce_column to_num nan <$> df).
  split; [by apply coerce_object_columns_eq|].
  split; [apply columns_coerced|].
  split; [|split].
  - intros p Hp Ho. apply list_elem_of_fmap. exists p. split; [|done].
    unfold coerce_column. by rewrite Ho.
  - apply Forall_fmap, Forall_forall. intros p _ Hd.
    exact (coerced_object_stuck p Hd).
  - rewrite coerce_object_columns_eq by (by rewrite columns_coerced).
    f_equal. rewrite <- list_fmap_compose.
    apply Forall_fmap_ext_1, Forall_forall. intros p _. apply coerce_column_twice.
Qed.

Lemma foldl_coerce_raised msg (cols : list string) :
  foldl (coerce_step to_num nan) (Raised msg) cols = Raised msg.
Proof. induction cols as [|c cols IH]; [done|]. apply IH. Qed.

Lemma df_setitem_columns (df : DataFrame num) c s :
  columns (df_setitem df c s) = columns df.
Proof.
  unfold columns, df_setitem. rewrite <- list_fmap_compose.
  apply Forall_fmap_ext_1, Forall_forall. intros p _. simpl. by case_decide.
Qed.

Lemma filter_label_columns (df : DataFrame num) c :
  length (filter (fun p => p.1 = c) df) = length (filter (fun l => l = c) (columns df)).
Proof.
  unfold columns. induction df as [|[l s] df IH]; [done|]. csimpl.
  rewrite !filter_cons. simpl. case_decide; simpl; by rewrite IH.
Qed.

Lemma df_getitem_once (df : DataFrame num) c attr s :
  df_getitem df c attr = Ok s →
  length (filter (fun l => l = c) (columns df)) = 1.
Proof.
  rewrite <- filter_label_columns. unfold df_getitem.
  destruct (filter _ df) as [|[l t] [|? ?]]; by intros.
Qed.

Lemma coerce_loop_once (cols : list string) (df df' : DataFrame num) :
  foldl (coerce_step to_num nan) (Ok df) cols = Ok df' →
  Forall (fun c => length (filter (fun l => l = c) (columns df)) = 1) cols.
Proof.
  revert df. induction cols as [|c cols IH]; intros df; [by constructor|].
  cbn [foldl]. unfold coerce_step at 2. simpl.
  destruct (df_getitem df c "dtype") as [s|msg] eqn:Hg; simpl.
  - intros H. constructor; [by eapply df_getitem_once|].
    destruct (is_object (dtype_of s)).
    + apply IH in H. by rewrite df_setitem_columns in H.
    + by apply IH in H.
  - by rewrite foldl_coerce_raised.
Qed.

Lemma once_NoDup (l : list string) :
  Forall (fun c => length (filter (fun x => x = c) l) = 1) l → NoDup l.
Proof.
  induction l as [|a l IH]; [constructor|].
  intros H. apply Forall_cons in H as [Ha Hl].
  rewrite filter_cons_True in Ha by done. simpl in Ha.
  assert (Hnot : a ∉ l).
  { destruct (filter (fun x => x = a) l) eqn:Hf; [|done].
    by apply (filter_nil_not_elem_of _ _ a) in Hf. }
  apply NoDup_cons. split; [done|]. apply IH.
  apply Forall_forall. intros c Hc.
  rewrite Forall_forall in Hl. specialize (Hl c Hc).
  rewrite filter_cons_False in Hl; [done|]. by intros ->.
Qed.

(** X14: the coercion loop returns a table exactly when no label is
    carried by two columns; otherwise it raises, and so does
    [plotting_altair] once its two guards are passed, leaving the world as
    it was. *)
Theorem duplicate_labels_raise E (df : DataFrame num) x y chart_type w :
  ((∃ df', coerce_object_columns to_num nan df = Ok df') ↔ NoDup (columns df)) ∧
  (¬ NoDup (columns df) → df_empty df = false →
   x ∈ columns df → y ∈ columns df →
   ∃ msg, plotting_altair to_num nan E (Some df) (Some x) (Some y) chart_type w
          = (Raised msg, w)).
Proof.
  assert (Hiff : (∃ df', coerce_object_columns to_num nan df = Ok df')
                 ↔ NoDup (columns df)).
  { split.
    - intros [df' H]. by apply once_NoDup, (coerce_loop_once _ df df').
    - intros Hn. eexists. by apply coerce_object_columns_eq. }
  split; [done|].
  intros Hdup He Hx Hy. unfold plotting_altair. rewrite He.
  rewrite decide_False by (intros [H|H]; by apply H).
  unfold bind, lift, build_chart.
  destruct (coerce_object_columns to_num nan df) as [df'|msg] eqn:Hc.
  - destruct Hdup. apply Hiff. by eexists.
  - simpl. by eexists.
Qed.

(** ** Further properties of the main view *)

Lemma bind_Ok {A B : Type} (m : M Client num A) (k : A → M Client num B) w a w1 :
  m w = (Ok a, w1) → bind m k w = k a w1.
Proof. intros H. unfold bind. by rewrite H. Qed.

Lemma bind_Raised {A B : Type} (m : M Client num A) (k : A → M Client num B) w msg w1 :
  m w = (Raised msg, w1) → bind m k w = (Raised msg, w1).
Proof. intros H. unfold bind. by rewrite H. Qed.

Lemma run_query_fresh_failure E q w c msg :
  data_cache w !! q = None → client (session w) = Some c →
  query_and_wait E c q = Raised msg →
  run_query E q w
  = (Ok (None, Some msg),
     with_data_cache
       (<[q := mkCached (None, Some msg) [UiError (safe_message "Running SQL query")]]>
          (data_cache w))
       (with_screen (screen w ++ [UiError (safe_message "Running SQL query")])
          (with_ext_calls (ext_calls w ++ [ExtQuery q]) w))).
Proof.
  intros H Hc Hq. destruct (run_query_miss E q w H) as (v & w' & Hb & ->).
  rewrite run_query_body_eq, Hc in Hb. simpl in Hb. rewrite Hq in Hb.
  simplify_eq. simpl. by rewrite drop_app_length.
Qed.

Lemma run_query_fresh_success E q w c (df : DataFrame num) :
  data_cache w !! q = None → client (session w) = Some c →
  query_and_wait E c q = Ok df →
  run_query E q w
  = (Ok (Some df, None),
     with_data_cache (<[q := mkCached (Some df, None) []]> (data_cache w))
       (with_ext_calls (ext_calls w ++ [ExtQuery q]) w)).
Proof.
  intros H Hc Hq. destruct (run_query_miss E q w H) as (v & w' & Hb & ->).
  rewrite run_query_body_eq, Hc in Hb. simpl in Hb. rewrite Hq in Hb.
  simplify_eq. simpl. by rewrite drop_all.
Qed.

Lemma get_schema_failure E dataset w err w1 :
  run_query E (schema_query dataset) w = (Ok (None, err), w1) →
  get_schema num_str E dataset w
  = (Ok no_tables,
     with_screen (screen w1 ++ [UiError (safe_message "Loading dataset schema")])
       (with_session (set_query_error err) w1)).
Proof.
  intros H. unfold get_schema, bind. rewrite H. simpl. by rewrite orb_true_r.
Qed.

Lemma get_schema_success E dataset w (d : DataFrame num) w1 :
  run_query E (schema_query dataset) w = (Ok (Some d, None), w1) →
  get_schema num_str E dataset w
  = (Ok (astype_str num_str (rename_column "table_name" "table_id" d)), w1).
Proof. intros H. unfold get_schema, bind. by rewrite H. Qed.

Lemma select_dataset_eq E picked w sch w0 :
  Some picked ≠ selected_dataset (session w) →
  get_schema num_str E picked (with_session (set_selected_dataset (Some picked)) w)
  = (Ok sch, w0) →
  select_dataset num_str E picked w
  = (Ok tt, with_session (set_selected_table None) (with_session (set_schema sch) w0)).
Proof.
  intros Hne Hg. unfold select_dataset, bind, get_session.
  case_decide; [|done]. unfold modify_session at 1. by rewrite Hg.
Qed.

(** The main view up to the dataset selector, for an active client that
    sees at least one dataset. *)
Lemma build_main_view_head E picked_dataset picked_table typed_query w c d ds :
  client (session w) = Some c →
  list_datasets E c public_project = Ok (d :: ds) →
  build_main_view num_str E picked_dataset picked_table typed_query w
  = bind (select_dataset num_str E picked_dataset) (fun _ =>
      bind get_session (fun s =>
        bind (lift (df_getitem (schema s) "table_id" "tolist")) (fun ids =>
          match cell_str num_str <$> values ids with
          | [] => st_info "No tables found in this dataset."
          | _ :: _ =>
              bind (modify_session (set_selected_table (Some picked_table))) (fun _ =>
              bind (st_write ("**Dataset ID**: " +:+
                      ("`bigquery-public-data." +:+ picked_dataset +:+ "."
                       +:+ picked_table +:+ "`"))) (fun _ =>
              bind (show_table_preview E picked_table) (fun _ =>
              bind (modify_session
                      (set_main_query_text
                         (Some (Some (default
                            ("SELECT *" +:+ nl +:+
                             "FROM `bigquery-public-data." +:+ picked_dataset +:+ "."
                               +:+ picked_table +:+ "`" +:+ nl +:+
                             "LIMIT 10;") typed_query))))) (fun _ =>
              bind get_session (fun s =>
                match initial_df s with
                | None => ret tt
                | Some df => bind (st_write "Query Result:") (fun _ => draw (UiDataframe df))
                end)))))
          end)))
      (with_ext_calls (ext_calls w ++ [ExtListDatasets public_project])
         (with_screen (screen w ++ [UiTitle "BigQuery Explorer"]) w)).
Proof.
  intros Hc Hl. unfold build_main_view at 1.
  unfold bind at 1. unfold draw at 1. unfold bind at 1. unfold get_session at 1.
  cbn [session with_screen]. rewrite Hc. cbn [truthy_opt negb].
  unfold bind at 1. unfold get_all_datasets, bind at 1 2, get_session at 1.
  cbn [session with_screen]. rewrite Hc. unfold call. by rewrite Hl.
Qed.

(** X15: without a client the main view draws its title and the invitation
    to paste a key, and touches nothing else; with a client that sees no
    dataset it draws a warning after the one listing call; and when the
    listing call raises, the exception leaves the main view.  In none of the
    three cases is a session key or a cache written. *)
Theorem main_view_early_exits E picked_dataset picked_table typed_query w :
  (client (session w) = None →
   build_main_view num_str E picked_dataset picked_table typed_query w
   = (Ok tt,
      with_screen (screen w ++ [UiTitle "BigQuery Explorer";
                                UiInfo "Paste your BigQuery key in the sidebar to begin."])
        w)) ∧
  (∀ c, client (session w) = Some c →
     list_datasets E c public_project = Ok [] →
     ∃ w', build_main_view num_str E picked_dataset picked_table typed_query w = (Ok tt, w') ∧
       session w' = session w ∧ data_cache w' = data_cache w ∧
       resource_cache w' = resource_cache w ∧
       screen w' = screen w ++ [UiTitle "BigQuery Explorer";
                                UiWarning "No datasets available."] ∧
       ext_calls w' = ext_calls w ++ [ExtListDatasets public_project]) ∧
  (∀ c msg, client (session w) = Some c →
     list_datasets E c public_project = Raised msg →
     ∃ w', build_main_view num_str E picked_dataset picked_table typed_query w = (Raised msg, w') ∧
       session w' = session w ∧ data_cache w' = data_cache w ∧
       resource_cache w' = resource_cache w ∧
       screen w' = screen w ++ [UiTitle "BigQuery Explorer"] ∧
       ext_calls w' = ext_calls w ++ [ExtListDatasets public_project]).
Proof.
  split; [|split].
  - intros Hc. unfold build_main_view, bind, draw, get_session, st_info, draw.
    cbn [session with_screen]. rewrite Hc. simpl.
    unfold with_screen. simpl. by rewrite <- app_assoc.
  - intros c Hc Hl. unfold build_main_view at 1.
    unfold bind at 1. unfold draw at 1. unfold bind at 1. unfold get_session at 1.
    cbn [session with_screen]. rewrite Hc. cbn [truthy_opt negb].
    unfold bind at 1. unfold get_all_datasets, bind at 1 2, get_session at 1.
    cbn [session with_screen]. rewrite Hc. unfold call. rewrite Hl.
    eexists. split; [reflexivity|]. read_back. by rewrite <- app_assoc.
  - intros c msg Hc Hl. unfold build_main_view at 1.
    unfold bind at 1. unfold draw at 1. unfold bind at 1. unfold get_session at 1.
    cbn [session with_screen]. rewrite Hc. cbn [truthy_opt negb].
    unfold bind at 1. unfold get_all_datasets, bind at 1 2, get_session at 1.
    cbn [session with_screen]. rewrite Hc. unfold call. rewrite Hl.
    eexists. split; [reflexivity|]. by read_back.
Qed.

(** X16: when the dataset picked is new and the query that lists its
    tables fails at the warehouse, the main view still returns: it stores
    the dataset and an empty table list, leaves the selected table unset,
    keeps the failure text in [query_error], draws the redacted message
    twice (once for each context) and then "No tables found in this
    dataset."; no table is previewed. *)
Theorem failed_listing_shows_no_tables E picked_dataset picked_table typed_query w c d ds
    msg :
  client (session w) = Some c →
  list_datasets E c public_project = Ok (d :: ds) →
  Some picked_dataset ≠ selected_dataset (session w) →
  data_cache w !! schema_query picked_dataset = None →
  query_and_wait E c (schema_query picked_dataset) = Raised msg →
  ∃ w', build_main_view num_str E picked_dataset picked_table typed_query w = (Ok tt, w') ∧
    selected_dataset (session w') = Some picked_dataset ∧
    schema (session w') = no_tables ∧
    selected_table (session w') = None ∧
    query_error (session w') = Some msg ∧
    downstream (session w') = downstream (session w) ∧
    screen w' = screen w ++ [UiTitle "BigQuery Explorer";
                             UiError (safe_message "Running SQL query");
                             UiError (safe_message "Loading dataset schema");
                             UiInfo "No tables found in this dataset."] ∧
    ext_calls w' = ext_calls w ++ [ExtListDatasets public_project;
                                   ExtQuery (schema_query picked_dataset)].
Proof.
  intros Hc Hl Hne Hm Hq.
  rewrite (build_main_view_head E _ _ typed_query w c d ds Hc Hl).
  set (w0 := with_ext_calls _ _).
  assert (Hr := run_query_fresh_failure E (schema_query picked_dataset)
                  (with_session (set_selected_dataset (Some picked_dataset)) w0)
                  c msg Hm Hc Hq).
  apply get_schema_failure in Hr.
  apply (select_dataset_eq E picked_dataset w0) in Hr; [|done].
  match type of Hr with _ = (_, ?W0) => set (W := W0) in * end.
  rewrite (bind_Ok _ _ _ _ _ Hr). cbv beta.
  rewrite (bind_Ok get_session _ W (session W) W eq_refl). cbv beta.
  assert (Hget : lift (df_getitem (schema (session W)) "table_id" "tolist") W
                 = (Ok (mkSeries DNumber []), W)) by reflexivity.
  rewrite (bind_Ok _ _ _ _ _ Hget). cbv beta.
  change (cell_str num_str <$> values (mkSeries DNumber [])) with (@nil string).
  cbv iota. exists (with_screen (screen W ++ [UiInfo "No tables found in this dataset."]) W).
  split; [reflexivity|]. unfold W, w0. read_fields.
  do 4 (split; [reflexivity|]).
  split; [by destruct (session w)|].
  split; [by rewrite <- !app_assoc|by rewrite <- app_assoc].
Qed.

(** X17: when the dataset picked is new, its table listing succeeds and
    names at least one table, but [get_table] raises for the table picked,
    the exception leaves the main view; by then the dataset, the table list
    and the table picked are stored, and three calls have been made. *)
Theorem preview_failure_escapes E picked_dataset picked_table typed_query w c d ds
    (d0 : DataFrame num) ids msg :
  client (session w) = Some c →
  list_datasets E c public_project = Ok (d :: ds) →
  Some picked_dataset ≠ selected_dataset (session w) →
  picked_dataset ≠ "" →
  data_cache w !! schema_query picked_dataset = None →
  query_and_wait E c (schema_query picked_dataset) = Ok d0 →
  df_getitem (astype_str num_str (rename_column "table_name" "table_id" d0))
    "table_id" "tolist" = Ok ids →
  values ids ≠ [] →
  get_table E c ("bigquery-public-data." +:+ picked_dataset +:+ "." +:+ picked_table)
  = Raised msg →
  ∃ w', build_main_view num_str E picked_dataset picked_table typed_query w = (Raised msg, w') ∧
    selected_dataset (session w') = Some picked_dataset ∧
    schema (session w') = astype_str num_str (rename_column "table_name" "table_id" d0) ∧
    selected_table (session w') = Some picked_table ∧
    downstream (session w') = downstream (session w) ∧
    ext_calls w' = ext_calls w
                   ++ [ExtListDatasets public_project;
                       ExtQuery (schema_query picked_dataset);
                       ExtGetTable ("bigquery-public-data." +:+ picked_dataset
                                    +:+ "." +:+ picked_table)].
Proof.
  intros Hc Hl Hne Hpd Hm Hq Hids Hv Hg.
  rewrite (build_main_view_head E _ _ typed_query w c d ds Hc Hl).
  set (w0 := with_ext_calls _ _).
  assert (Hr := run_query_fresh_success E (schema_query picked_dataset)
                  (with_session (set_selected_dataset (Some picked_dataset)) w0)
                  c d0 Hm Hc Hq).
  apply get_schema_success in Hr.
  apply (select_dataset_eq E picked_dataset w0) in Hr; [|done].
  match type of Hr with _ = (_, ?W0) => set (W := W0) in * end.
  rewrite (bind_Ok _ _ _ _ _ Hr). cbv beta.
  rewrite (bind_Ok get_session _ W (session W) W eq_refl). cbv beta.
  assert (Hget : lift (df_getitem (schema (session W)) "table_id" "tolist") W
                 = (Ok ids, W)).
  { unfold lift. f_equal. exact Hids. }
  rewrite (bind_Ok _ _ _ _ _ Hget). cbv beta.
  destruct (values ids) as [|v vs] eqn:Hvs; [done|].
  change (cell_str num_str <$> v :: vs)
    with (cell_str num_str v :: (cell_str num_str <$> vs)).
  cbv iota.
  set (W1 := with_session (set_selected_table (Some picked_table)) W).
  rewrite (bind_Ok (modify_session _) _ W tt W1 eq_refl). cbv beta.
  match goal with |- context [bind (st_write ?t) _ W1] =>
    set (W2 := with_screen (screen W1 ++ [UiWrite t]) W1);
    rewrite (bind_Ok (st_write t) _ W1 tt W2 eq_refl)
  end.
  cbv beta.
  set (W3 := with_ext_calls
               (ext_calls W2
                ++ [ExtGetTable ("bigquery-public-data." +:+ picked_dataset
                                 +:+ "." +:+ picked_table)])
               (with_screen
                  (screen W2 ++ [UiWrite ("**Schema**: `" +:+ picked_table +:+ "`")])
                  W2)).
  assert (Hshow : show_table_preview E picked_table W2 = (Raised msg, W3)).
  { unfold show_table_preview.
    rewrite (bind_Ok get_session _ W2 (session W2) W2 eq_refl). cbv beta.
    assert (Hsd : selected_dataset (session W2) = Some picked_dataset) by reflexivity.
    assert (Hcl : client (session W2) = Some c) by exact Hc.
    assert (Ht : truthy_str (Some picked_dataset) = true)
      by (by destruct picked_dataset).
    rewrite Hsd, Ht, Hcl. cbn [negb py_str].
    unfold bind, st_write, draw, call. rewrite Hg. reflexivity. }
  rewrite (bind_Raised _ _ _ _ _ Hshow).
  exists W3. split; [reflexivity|].
  unfold W3, W2, W1, W, w0. read_fields.
  do 3 (split; [reflexivity|]).
  split; [reflexivity|]. by rewrite <- !app_assoc.
Qed.

Lemma columns_listing (d : DataFrame num) :
  columns (astype_str num_str (rename_column "table_name" "table_id" d))
  = (fun l => if decide (l = "table_name") then "table_id" else l) <$> columns d.
Proof.
  unfold columns, astype_str, rename_column. rewrite <- !list_fmap_compose.
  apply Forall_fmap_ext_1, Forall_forall. intros p _. simpl. by case_decide.
Qed.

(** X18: [get_schema] always returns; of the session it can only write
    [query_error]; it leaves the client cache alone and makes at most the
    one query call of [run_query].  Handed a table and no error by
    [run_query], it draws nothing and returns that table with the label
    [table_name] replaced by [table_id] and every column turned into text of
    dtype [object]; handed no table, it stores the error, draws the redacted
    message and returns the empty table list of [init_state], whose one
    column is of dtype float64. *)
Theorem get_schema_effects E dataset w :
  ∃ r w1 sch w',
    run_query E (schema_query dataset) w = (Ok r, w1) ∧
    get_schema num_str E dataset w = (Ok sch, w') ∧
    (∃ e, session w' = set_query_error e (session w)) ∧
    resource_cache w' = resource_cache w ∧
    (ext_calls w' = ext_calls w ∨
     ext_calls w' = ext_calls w ++ [ExtQuery (schema_query dataset)]) ∧
    (∀ d, r = (Some d, None) →
       w' = w1 ∧
       columns sch
       = (fun l => if decide (l = "table_name") then "table_id" else l) <$> columns d ∧
       Forall (fun p => dtype_of p.2 = DObject ∧
                        Forall (fun v => ∃ t, v = CText t) (values p.2)) sch) ∧
    (r.1 = None →
       sch = [("table_id", mkSeries DNumber [])] ∧
       query_error (session w') = r.2 ∧
       screen w' = screen w1 ++ [UiError (safe_message "Loading dataset schema")]).
Proof.
  destruct (run_query_frame E (schema_query dataset) w)
    as ([df error] & w1 & Hr & Hs & Hrc).
  assert (Hcalls : ext_calls w1 = ext_calls w ∨
                   ext_calls w1 = ext_calls w ++ [ExtQuery (schema_query dataset)]).
  { destruct (data_cache w !! schema_query dataset) as [e|] eqn:Hl.
    - rewrite (run_query_hit E _ w e Hl) in Hr. simplify_eq. by left.
    - destruct (run_query_miss E _ w Hl) as (v & w' & Hb & Hr').
      rewrite Hr in Hr'. simplify_eq. simpl.
      rewrite run_query_body_eq in Hb.
      destruct (client (session w)) as [c|]; simpl in Hb.
      + destruct (query_and_wait E c (schema_query dataset)); simplify_eq; by right.
      + simplify_eq. by left. }
  exists (df, error), w1. unfold get_schema, bind. rewrite Hr.
  destruct (truthy_str error || is_none df) eqn:Hf.
  - unfold modify_session, safe_bigquery_error, st_error, draw, ret.
    eexists _, _. split; [done|]. split; [done|].
    split; [exists error; cbn [session with_screen with_session]; by rewrite Hs|].
    split; [done|]. split; [done|]. split; [|done].
    intros d [= -> ->]. done.
  - destruct df as [d|]; [|by rewrite orb_true_r in Hf].
    eexists _, _. split; [done|]. split; [done|].
    split; [exists (query_error (session w)); rewrite Hs; by destruct (session w)|].
    split; [done|]. split; [done|]. split; [|done].
    intros d' [= <- _]. split; [done|]. split; [apply columns_listing|].
    unfold astype_str. apply Forall_fmap, Forall_forall. intros p _. simpl.
    split; [done|]. apply Forall_fmap, Forall_forall. intros v _. simpl. by eexists.
Qed.

End Properties.

(** * The properties on the concrete warehouse *)

(** Counterexample to C1 as stated: in a session in ChartReady on dataset [d1],
    picking [d2] stores the new dataset and leaves the chart selection, the
    result and the state ChartReady as they were. *)
Lemma dataset_switch_counterexample :
  let w' := (build_main_view demo_num_str demo_env "d2" "t1" None demo_chart_world).2 in
  selected_dataset (session demo_chart_world) = Some "d1" ∧
  view_state_of (session demo_chart_world) = ChartReady ∧
  selected_dataset (session w') = Some "d2" ∧
  chart_x (session w') = Some "a" ∧
  chart_y (session w') = Some "b" ∧
  chart_type_selected (session w') = Some "Scatter" ∧
  initial_df (session w') = Some demo_df ∧
  view_state_of (session w') = ChartReady.
Proof. vm_compute. repeat split. Qed.

Lemma dataset_switch_keeps_chart_witness :
  Some "d2" ≠ selected_dataset (session demo_chart_world) ∧
  ∃ w', select_dataset demo_num_str demo_env "d2" demo_chart_world = (Ok tt, w') ∧
        selected_table (session w') = None ∧
        downstream (session w') = downstream (session demo_chart_world).
Proof.
  assert (H : Some "d2" ≠ selected_dataset (session demo_chart_world)).
  { simpl. discriminate. }
  split; [exact H|].
  destruct (proj1 (dataset_switch_keeps_chart demo_num_str demo_env "d2" "t1" None
                     demo_chart_world) H)
    as (sch & w0 & w' & _ & Hsel & _ & _ & Ht & Hd & _).
  exists w'. split; [exact Hsel|]. split; [exact Ht|exact Hd].
Defined.


(** Counterexample to C3 as stated: the error component [run_query] returns for a
    query the warehouse rejects is the text of the failure itself. *)
Lemma query_failure_counterexample :
  query_and_wait demo_env "demo" demo_failing_query = Raised demo_failure ∧
  (run_query demo_env demo_failing_query demo_failing_world).1
  = Ok (None, Some demo_failure).
Proof. split; vm_compute; reflexivity. Qed.

Lemma query_failure_redacted_witness :
  data_cache demo_failing_world !! demo_failing_query = None ∧
  client (session demo_failing_world) = Some "demo" ∧
  query_and_wait demo_env "demo" demo_failing_query = Raised demo_failure ∧
  main_query_text (session demo_failing_world) = Some (Some demo_failing_query) ∧
  truthy_str (Some (strip demo_failing_query)) = true ∧
  ∃ w', submit_handler_main demo_env "d1" demo_failing_world = (Ok tt, w') ∧
        screen w' = screen demo_failing_world
                    ++ [UiError (safe_message "Running SQL query");
                        UiError "Query failed."] ∧
        query_error (session w') = Some demo_failure ∧
        initial_df (session w') = None.
Proof.
  assert (H1 : data_cache demo_failing_world !! demo_failing_query = None)
    by (vm_compute; reflexivity).
  assert (H2 : query_and_wait demo_env "demo" demo_failing_query = Raised demo_failure)
    by (vm_compute; reflexivity).
  assert (H3 : truthy_str (Some (strip demo_failing_query)) = true)
    by (vm_compute; reflexivity).
  split; [exact H1|]. split; [reflexivity|]. split; [exact H2|].
  split; [reflexivity|]. split; [exact H3|].
  apply (proj2 (query_failure_redacted demo_env demo_failing_query demo_failing_world
                  "demo" demo_failure "d1" H1 eq_refl H2) eq_refl H3).
Defined.

Lemma run_query_exactly_one_witness :
  cache_sound (data_cache demo_client_world) ∧
  data_cache demo_client_world !! demo_query = None ∧
  query_and_wait demo_env "demo" demo_query = Ok demo_df ∧
  ∃ w', run_query demo_env demo_query demo_client_world
        = (Ok (Some demo_df, None), w') ∧
        cache_sound (data_cache w').
Proof.
  assert (H : cache_sound (data_cache demo_client_world)).
  { intros q e Hq. simpl in Hq. rewrite lookup_empty in Hq. discriminate. }
  assert (Hm : data_cache demo_client_world !! demo_query = None)
    by (vm_compute; reflexivity).
  assert (Hq : query_and_wait demo_env "demo" demo_query = Ok demo_df)
    by (vm_compute; reflexivity).
  split; [exact H|]. split; [exact Hm|]. split; [exact Hq|].
  destruct (run_query_exactly_one demo_env demo_query demo_client_world H)
    as (v & w' & Hr & _ & Hs & Hok & _).
  exists w'. split; [|exact Hs].
  rewrite Hr. f_equal. f_equal. exact (Hok "demo" demo_df Hm eq_refl Hq).
Defined.

(** Counterexample to C6 as stated: a session without a client that submits a text
    another session has run gets the cached table, not the no-client
    pair. *)
Lemma run_query_no_client_counterexample :
  client (session demo_second_session) = None ∧
  (run_query demo_env demo_query demo_second_session).1 = Ok (Some demo_df, None) ∧
  (run_query demo_env demo_query demo_second_session).1
  ≠ Ok (None, Some no_client_message).
Proof.
  assert (H : (run_query demo_env demo_query demo_second_session).1
              = Ok (Some demo_df, None)) by (vm_compute; reflexivity).
  split; [reflexivity|]. split; [exact H|]. rewrite H. discriminate.
Qed.

Lemma run_query_no_client_witness :
  client (session demo_fresh_world) = None ∧
  ∃ v w', run_query demo_env demo_query demo_fresh_world = (Ok v, w') ∧
          ext_calls w' = ext_calls demo_fresh_world ∧
          (data_cache demo_fresh_world !! demo_query = None →
           v = (None, Some no_client_message)) ∧
          (∀ e, data_cache demo_fresh_world !! demo_query = Some e →
                v = cached_value e).
Proof.
  split; [reflexivity|].
  apply (run_query_no_client demo_env demo_query demo_fresh_world eq_refl).
Defined.

Lemma infer_axis_kind_spec_witness :
  NoDup (columns demo_scores) ∧
  ("score", score_column) ∈ demo_scores ∧
  demo_to_num "bad" = None ∧
  infer_axis_kind demo_to_num DNaN demo_scores "score" = Ok Categorical.
Proof.
  assert (Hn : NoDup (columns demo_scores)).
  { apply (bool_decide_unpack (NoDup (columns demo_scores))). vm_compute. exact I. }
  assert (Hs : ("score", score_column) ∈ demo_scores) by left.
  split; [exact Hn|]. split; [exact Hs|]. split; [reflexivity|].
  apply (proj2 (proj2 (proj2 (infer_axis_kind_spec demo_to_num DNaN demo_scores
                                "score" score_column Hn Hs))) eq_refl eq_refl).
Defined.

Lemma legend_field_spec_witness :
  NoDup (columns demo_scores) ∧
  ("n", count_column) ∈ demo_scores ∧
  ("score", score_column) ∈ demo_scores ∧
  ∃ c,
    build_chart demo_to_num DNaN demo_scores "n" "score" (Some "Line") = Ok c ∧
    enc_color c = ColorField "score" ∧
    plotting_altair demo_to_num DNaN demo_env (Some demo_scores) (Some "n")
      (Some "score") (Some "Line") demo_fresh_world
    = (Ok tt, with_screen (screen demo_fresh_world ++ [UiChart c]) demo_fresh_world).
Proof.
  assert (Hn : NoDup (columns demo_scores)).
  { apply (bool_decide_unpack (NoDup (columns demo_scores))). vm_compute. exact I. }
  assert (Hx : ("n", count_column) ∈ demo_scores) by (right; left).
  assert (Hy : ("score", score_column) ∈ demo_scores) by left.
  split; [exact Hn|]. split; [exact Hx|]. split; [exact Hy|].
  destruct (legend_field_spec demo_to_num DNaN demo_env demo_scores "n" "score"
              count_column score_column (Some "Line") demo_fresh_world Hn Hx Hy)
    as (df' & c & kx & ky & _ & Hc & Hkx & Hky & _ & Hcol & Hdraw & _).
  assert (Ekx : kx = Quantitative).
  { assert (E : infer_axis_kind demo_to_num DNaN demo_scores "n" = Ok Quantitative)
      by (vm_compute; reflexivity).
    rewrite E in Hkx. by injection Hkx as <-. }
  assert (Eky : ky = Categorical).
  { assert (E : infer_axis_kind demo_to_num DNaN demo_scores "score" = Ok Categorical)
      by (vm_compute; reflexivity).
    rewrite E in Hky. by injection Hky as <-. }
  assert (Ha : altair_chart demo_env c = Ok tt).
  { assert (E : build_chart demo_to_num DNaN demo_scores "n" "score" (Some "Line")
                = Ok c → altair_chart demo_env c = Ok tt).
    { vm_compute. intros [= <-]. reflexivity. }
    exact (E Hc). }
  exists c. split; [exact Hc|].
  split; [rewrite Hcol, Ekx, Eky; reflexivity|].
  exact (Hdraw eq_refl Ha).
Defined.

Lemma invalid_key_keeps_client_witness :
  "{}" ≠ "" ∧
  resource_cache demo_client_world !! "{}" = None ∧
  build_client demo_env "{}"
  = Raised "Service account info was not in the expected format" ∧
  ∃ w', user_key_handler demo_env (Some "{}") demo_client_world = (Ok false, w') ∧
        client (session w') = client (session demo_client_world) ∧
        screen w' = screen demo_client_world
                    ++ [UiError ("Invalid credentials: "
                                 +:+ "Service account info was not in the expected format");
                        UiError "Invalid credentials. Please try again."].
Proof.
  assert (H1 : "{}" ≠ "") by discriminate.
  assert (H2 : resource_cache demo_client_world !! "{}" = None)
    by (vm_compute; reflexivity).
  assert (H3 : build_client demo_env "{}"
               = Raised "Service account info was not in the expected format")
    by (vm_compute; reflexivity).
  split; [exact H1|]. split; [exact H2|]. split; [exact H3|].
  apply (proj1 (invalid_key_keeps_client demo_env (Some "{}") demo_client_world)
           "{}" _ eq_refl H1 H2 H3).
Defined.

Lemma cache_keyed_by_text_only_witness :
  client (session demo_fresh_world) = None ∧
  data_cache demo_fresh_world !! demo_query = None ∧
  ∃ w1, run_query demo_env demo_query demo_fresh_world
        = (Ok (None, Some no_client_message), w1) ∧
        ∀ c, ∃ w2, run_query demo_env demo_query (with_session (set_client (Some c)) w1)
                   = (Ok (None, Some no_client_message), w2).
Proof.
  assert (H : data_cache demo_fresh_world !! demo_query = None)
    by (vm_compute; reflexivity).
  split; [reflexivity|]. split; [exact H|].
  apply (proj2 (proj2 (cache_keyed_by_text_only demo_env demo_env demo_query
                         demo_fresh_world id)) eq_refl H).
Defined.

(** ** The further properties on the concrete warehouse *)

Lemma valid_key_installs_client_witness :
  "good" ≠ "" ∧
  resource_cache demo_fresh_world !! "good" = None ∧
  build_client demo_env "good" = Ok "demo" ∧
  ∃ w', user_key_handler demo_env (Some "good") demo_fresh_world = (Ok true, w') ∧
        client (session w') = Some "demo" ∧
        user_key_json (session w') = None.
Proof.
  assert (H1 : "good" ≠ "") by discriminate.
  assert (H2 : resource_cache demo_fresh_world !! "good" = None)
    by (vm_compute; reflexivity).
  assert (H3 : build_client demo_env "good" = Ok "demo") by (vm_compute; reflexivity).
  split; [exact H1|]. split; [exact H2|]. split; [exact H3|].
  destruct (valid_key_installs_client demo_env "good" "demo" demo_fresh_world H1
              (or_introl (conj H2 H3)))
    as (w' & Hh & Hc & Hu & _).
  exists w'. split; [exact Hh|]. split; [exact Hc|exact Hu].
Defined.

Lemma rejected_key_effects_witness :
  "{}" ≠ "" ∧
  (user_key_handler demo_env (Some "{}") demo_client_world).1 ≠ Ok true ∧
  session (user_key_handler demo_env (Some "{}") demo_client_world).2
  = set_user_key_json (Some "{}") (session demo_client_world).
Proof.
  assert (H1 : "{}" ≠ "") by discriminate.
  assert (H2 : (user_key_handler demo_env (Some "{}") demo_client_world).1 ≠ Ok true).
  { vm_compute. discriminate. }
  split; [exact H1|]. split; [exact H2|].
  apply (proj1 (rejected_key_effects demo_env demo_client_world) "{}" _ _ H1
           (surjective_pairing _) H2).
Defined.

Lemma blank_query_rejected_witness :
  main_query_text (session demo_blank_world) = Some (Some (encode demo_blanks)) ∧
  Forall (fun cp => py_space cp = true) demo_blanks ∧
  submit_handler_main demo_env "d1" demo_blank_world
  = (Ok tt,
     with_session (set_query_error (Some "Please enter a SQL query."))
       (with_session (set_initial_df None) demo_blank_world)).
Proof.
  assert (H : Forall (fun cp => py_space cp = true) demo_blanks).
  { repeat constructor. }
  split; [reflexivity|]. split; [exact H|].
  apply (blank_query_rejected demo_env "d1" (Some (encode demo_blanks)) demo_blank_world
           eq_refl).
  right. exists demo_blanks. split; [exact H|reflexivity].
Defined.

Lemma submit_stores_result_witness :
  main_query_text (session demo_chart_world) = Some (Some demo_query) ∧
  truthy_str (Some (strip demo_query)) = true ∧
  (run_query demo_env demo_query demo_chart_world).1 = Ok (Some demo_df, None) ∧
  last_schema (session demo_chart_world) = Some (columns demo_df) ∧
  ∃ w', submit_handler_main demo_env "d1" demo_chart_world = (Ok tt, w') ∧
        initial_df (session w') = Some demo_df ∧
        chart_x (session w') = chart_x (session demo_chart_world) ∧
        plot_ready (session w') = plot_ready (session demo_chart_world).
Proof.
  assert (H1 : truthy_str (Some (strip demo_query)) = true) by (vm_compute; reflexivity).
  assert (H2 : (run_query demo_env demo_query demo_chart_world).1
               = Ok (Some demo_df, None)) by (vm_compute; reflexivity).
  assert (H3 : run_query demo_env demo_query demo_chart_world
               = (Ok (Some demo_df, None),
                  (run_query demo_env demo_query demo_chart_world).2)).
  { rewrite <- H2. apply surjective_pairing. }
  split; [reflexivity|]. split; [exact H1|]. split; [exact H2|].
  split; [reflexivity|].
  destruct (submit_stores_result demo_to_num DNaN demo_env "d1" demo_query
              demo_chart_world demo_df _ eq_refl H1 H3)
    as (w' & Hs & Hi & _ & _ & _ & Hsame & _).
  exists w'. split; [exact Hs|]. split; [exact Hi|].
  destruct (Hsame eq_refl) as (Hx & _ & _ & Hp). split; [exact Hx|exact Hp].
Defined.

Lemma failed_submit_discards_result_witness :
  main_query_text (session demo_failing_world) = Some (Some demo_failing_query) ∧
  truthy_str (Some (strip demo_failing_query)) = true ∧
  (run_query demo_env demo_failing_query demo_failing_world).1
  = Ok (None, Some demo_failure) ∧
  ∃ w', submit_handler_main demo_env "d1" demo_failing_world = (Ok tt, w') ∧
        initial_df (session w') = None ∧
        query_error (session w') = Some demo_failure.
Proof.
  assert (H1 : truthy_str (Some (strip demo_failing_query)) = true)
    by (vm_compute; reflexivity).
  assert (H2 : (run_query demo_env demo_failing_query demo_failing_world).1
               = Ok (None, Some demo_failure)) by (vm_compute; reflexivity).
  assert (H3 : run_query demo_env demo_failing_query demo_failing_world
               = (Ok (None, Some demo_failure),
                  (run_query demo_env demo_failing_query demo_failing_world).2)).
  { rewrite <- H2. apply surjective_pairing. }
  split; [reflexivity|]. split; [exact H1|]. split; [exact H2|].
  destruct (failed_submit_discards_result demo_to_num DNaN demo_env "d1"
              demo_failing_query demo_failing_world (Some demo_failure) _
              eq_refl H1 H3)
    as (w' & Hs & Hi & Hq & _).
  exists w'. split; [exact Hs|]. split; [exact Hi|exact Hq].
Defined.

Lemma plotting_altair_guards_witness :
  df_empty demo_df = false ∧
  ¬ (∃ x' y', Some "a" = Some x' ∧ Some "c" = Some y' ∧
              x' ∈ columns demo_df ∧ y' ∈ columns demo_df) ∧
  plotting_altair demo_to_num DNaN demo_env (Some demo_df) (Some "a") (Some "c")
    (Some "Bar") demo_fresh_world
  = (Ok tt,
     with_screen (screen demo_fresh_world ++ [UiWarning "Invalid column selection."])
       demo_fresh_world).
Proof.
  assert (H : ¬ (∃ x' y', Some "a" = Some x' ∧ Some "c" = Some y' ∧
                          x' ∈ columns demo_df ∧ y' ∈ columns demo_df)).
  { intros (x' & y' & _ & [= <-] & _ & Hy). simpl in Hy.
    apply elem_of_cons in Hy as [Hy|Hy]; [discriminate|].
    apply elem_of_cons in Hy as [Hy|Hy]; [discriminate|].
    by apply elem_of_nil in Hy. }
  split; [reflexivity|]. split; [exact H|].
  apply (proj2 (plotting_altair_guards demo_to_num DNaN demo_env (Some demo_df) (Some "a")
                  (Some "c") (Some "Bar") demo_fresh_world) demo_df eq_refl eq_refl H).
Defined.

Lemma plotting_altair_only_draws_witness :
  ∃ r l, plotting_altair demo_to_num DNaN demo_env (Some demo_twin) (Some "a") (Some "a")
           (Some "Line") demo_fresh_world
         = (r, with_screen (screen demo_fresh_world ++ l) demo_fresh_world) ∧
         (length l ≤ 1)%nat ∧ (r ≠ Ok tt → l = []).
Proof.
  apply (plotting_altair_only_draws demo_to_num DNaN demo_env (Some demo_twin) (Some "a")
           (Some "a") (Some "Line") demo_fresh_world).
Defined.

Lemma build_chart_shape_witness :
  NoDup (columns demo_scores) ∧
  ∃ c, build_chart demo_to_num DNaN demo_scores "n" "score" (Some "Area") = Ok c ∧
       chart_mark c = MarkBar ∧
       chart_title c = Some "Area Chart" ∧
       enc_x c = ("n:Q", "n") ∧
       enc_y c = ("score:N", "score").
Proof.
  assert (Hn : NoDup (columns demo_scores)).
  { apply (bool_decide_unpack (NoDup (columns demo_scores))). vm_compute. exact I. }
  split; [exact Hn|].
  destruct (build_chart_shape demo_to_num DNaN demo_scores "n" "score" (Some "Area") Hn)
    as (c & kx & ky & Hc & Hkx & Hky & _ & Hx & Hy & _ & Ht & _ & _ & _ & _ & Hbar).
  exists c. split; [exact Hc|].
  split; [apply Hbar; discriminate|]. split; [exact Ht|].
  assert (Ekx : kx = Quantitative).
  { assert (E : infer_axis_kind demo_to_num DNaN demo_scores "n" = Ok Quantitative)
      by (vm_compute; reflexivity).
    rewrite E in Hkx. by injection Hkx as <-. }
  assert (Eky : ky = Categorical).
  { assert (E : infer_axis_kind demo_to_num DNaN demo_scores "score" = Ok Categorical)
      by (vm_compute; reflexivity).
    rewrite E in Hky. by injection Hky as <-. }
  rewrite Hx, Hy, Ekx, Eky. split; reflexivity.
Defined.

Lemma coerce_object_columns_settles_witness :
  NoDup (columns demo_scores) ∧
  ∃ df', coerce_object_columns demo_to_num DNaN demo_scores = Ok df' ∧
         columns df' = columns demo_scores ∧
         coerce_object_columns demo_to_num DNaN df' = Ok df'.
Proof.
  assert (Hn : NoDup (columns demo_scores)).
  { apply (bool_decide_unpack (NoDup (columns demo_scores))). vm_compute. exact I. }
  split; [exact Hn|].
  destruct (coerce_object_columns_settles demo_to_num DNaN demo_scores Hn)
    as (df' & H1 & H2 & _ & _ & H3).
  exists df'. split; [exact H1|]. split; [exact H2|exact H3].
Defined.

Lemma duplicate_labels_raise_witness :
  ¬ NoDup (columns demo_twin) ∧
  df_empty demo_twin = false ∧
  "a" ∈ columns demo_twin ∧
  ∃ msg, plotting_altair demo_to_num DNaN demo_env (Some demo_twin) (Some "a") (Some "a")
           (Some "Line") demo_fresh_world
         = (Raised msg, demo_fresh_world).
Proof.
  assert (Hd : ¬ NoDup (columns demo_twin)).
  { apply (bool_decide_unpack (¬ NoDup (columns demo_twin))). vm_compute. exact I. }
  assert (Ha : "a" ∈ columns demo_twin) by left.
  split; [exact Hd|]. split; [reflexivity|]. split; [exact Ha|].
  apply (proj2 (duplicate_labels_raise demo_to_num DNaN demo_env demo_twin "a" "a"
                  (Some "Line") demo_fresh_world) Hd eq_refl Ha Ha).
Defined.

Lemma main_view_early_exits_witness :
  client (session demo_fresh_world) = None ∧
  build_main_view demo_num_str demo_env "d1" "t1" None demo_fresh_world
  = (Ok tt,
     with_screen (screen demo_fresh_world
                  ++ [UiTitle "BigQuery Explorer";
                      UiInfo "Paste your BigQuery key in the sidebar to begin."])
       demo_fresh_world).
Proof.
  split; [reflexivity|].
  apply (proj1 (main_view_early_exits demo_num_str demo_env "d1" "t1" None
                  demo_fresh_world)
           eq_refl).
Defined.

Lemma failed_listing_shows_no_tables_witness :
  client (session demo_client_world) = Some "demo" ∧
  list_datasets demo_env "demo" public_project = Ok ["d1"; "d2"] ∧
  Some "d9" ≠ selected_dataset (session demo_client_world) ∧
  data_cache demo_client_world !! schema_query "d9" = None ∧
  query_and_wait demo_env "demo" (schema_query "d9") = Raised demo_failure ∧
  ∃ w', build_main_view demo_num_str demo_env "d9" "t1" None demo_client_world = (Ok tt, w') ∧
        schema (session w') = no_tables ∧
        selected_table (session w') = None ∧
        query_error (session w') = Some demo_failure.
Proof.
  assert (H1 : Some "d9" ≠ selected_dataset (session demo_client_world)).
  { simpl. discriminate. }
  assert (H2 : data_cache demo_client_world !! schema_query "d9" = None)
    by (vm_compute; reflexivity).
  assert (H3 : query_and_wait demo_env "demo" (schema_query "d9") = Raised demo_failure)
    by (vm_compute; reflexivity).
  split; [reflexivity|]. split; [reflexivity|]. split; [exact H1|].
  split; [exact H2|]. split; [exact H3|].
  destruct (failed_listing_shows_no_tables demo_num_str demo_env "d9" "t1" None
              demo_client_world "demo" "d1" ["d2"] demo_failure
              eq_refl eq_refl H1 H2 H3)
    as (w' & Hb & _ & Hs & Ht & Hq & _).
  exists w'. split; [exact Hb|]. split; [exact Hs|]. split; [exact Ht|exact Hq].
Defined.

Lemma preview_failure_escapes_witness :
  client (session demo_client_world) = Some "demo" ∧
  Some "d2" ≠ selected_dataset (session demo_client_world) ∧
  query_and_wait demo_env_locked "demo" (schema_query "d2") = Ok demo_tables ∧
  get_table demo_env_locked "demo" "bigquery-public-data.d2.t1"
  = Raised "404 Not found: Table" ∧
  ∃ w', build_main_view demo_num_str demo_env_locked "d2" "t1" None demo_client_world
        = (Raised "404 Not found: Table", w') ∧
        selected_dataset (session w') = Some "d2" ∧
        selected_table (session w') = Some "t1".
Proof.
  assert (H1 : Some "d2" ≠ selected_dataset (session demo_client_world)).
  { simpl. discriminate. }
  assert (H2 : "d2" ≠ "") by discriminate.
  assert (H3 : data_cache demo_client_world !! schema_query "d2" = None)
    by (vm_compute; reflexivity).
  assert (H4 : query_and_wait demo_env_locked "demo" (schema_query "d2") = Ok demo_tables)
    by (vm_compute; reflexivity).
  assert (H5 : df_getitem (astype_str demo_num_str
                             (rename_column "table_name" "table_id" demo_tables))
                 "table_id" "tolist"
               = Ok (mkSeries DObject [CText "t1"; CText "t2"]))
    by (vm_compute; reflexivity).
  assert (H6 : values (mkSeries DObject [CText "t1"; CText "t2"])
               ≠ ([] : list (cell demo_num))) by discriminate.
  split; [reflexivity|]. split; [exact H1|]. split; [exact H4|].
  split; [reflexivity|].
  destruct (preview_failure_escapes demo_num_str demo_env_locked "d2" "t1" None
              demo_client_world "demo" "d1" ["d2"] demo_tables _
              "404 Not found: Table" eq_refl eq_refl H1 H2 H3 H4 H5 H6 eq_refl)
    as (w' & Hb & Hd & _ & Ht & _).
  exists w'. split; [exact Hb|]. split; [exact Hd|exact Ht].
Defined.
